(** * labns: the configuration loader and validator of [internal/config/parsing.go]

    A shallow embedding of [LoadConfig], [ValidateNameserver], [isValidRecordName],
    [isValidType] and [isValidTarget], together with the pieces of Go's standard
    library they call ([net.ParseIP], [IP.To4], [IP.To16], the [[]rune] conversion),
    and the properties of the validation pipeline. *)

From Stdlib Require Import ZArith Lia Bool Ascii String DecimalString DecimalNat.
From stdpp Require Import base tactics option list strings gmap.

Local Open Scope string_scope.
Local Open Scope list_scope.
Local Open Scope Z_scope.

(** ** Go strings

    A Go [string] is a sequence of bytes. Literals are written as Rocq strings; the
    code that indexes or slices a string works on its bytes, each a [Z] in [0, 256). *)

Abbreviation byte := Z (only parsing).

Definition bytes (s : string) : list byte :=
  map (fun c => Z.of_N (N_of_ascii c)) (list_ascii_of_string s).

(** [s[i]] on bytes. Every use below is guarded by a length test, as it is in the Go
    code (an unguarded one would panic); out of range the model reads [-1], which is
    no byte. *)
Definition at_ (s : list byte) (i : nat) : Z := nth i s (-1).

Definition len (s : list byte) : Z := Z.of_nat (length s).

(** Character constants used by the parsers. *)
Definition ch_dot : Z := 46.
Definition ch_colon : Z := 58.
Definition ch_0 : Z := 48.
Definition ch_9 : Z := 57.
Definition ch_a : Z := 97.
Definition ch_f : Z := 102.
Definition ch_A : Z := 65.
Definition ch_F : Z := 70.

(** ** Go's [net] package: [ParseIP], [To4], [To16]

    The functions of [net/parse.go] and [net/ip.go] that [parsing.go] reaches,
    transcribed with their loops from the Go 1.17 sources. An [IP] is a byte slice; [nil] is [None]. *)
Module net.

Abbreviation IP := (list Z) (only parsing).

Definition IPv4len : nat := 4.
Definition IPv6len : nat := 16.

(** [const big = 0xFFFFFF] *)
Definition big : Z := 0xFFFFFF.

(** [dtoi]: decimal to integer; returns the number, the characters consumed and
    success. [n] and [i] are the loop's running values. *)
Fixpoint dtoi_loop (s : list byte) (n : Z) (i : nat) : Z * nat * bool :=
  match s with
  | c :: s' =>
      if (ch_0 <=? c) && (c <=? ch_9) then
        let n := n * 10 + (c - ch_0) in
        if big <=? n then (big, i, false) else dtoi_loop s' n (S i)
      else if Nat.eqb i 0 then (0, O, false) else (n, i, true)
  | [] => if Nat.eqb i 0 then (0, O, false) else (n, i, true)
  end.

Definition dtoi (s : list byte) : Z * nat * bool := dtoi_loop s 0 0.

(** [xtoi]: hexadecimal to integer, same shape. *)
Fixpoint xtoi_loop (s : list byte) (n : Z) (i : nat) : Z * nat * bool :=
  let stop := if Nat.eqb i 0 then (0, i, false) else (n, i, true) in
  match s with
  | c :: s' =>
      let digit :=
        if (ch_0 <=? c) && (c <=? ch_9) then Some (c - ch_0)
        else if (ch_a <=? c) && (c <=? ch_f) then Some (c - ch_a + 10)
        else if (ch_A <=? c) && (c <=? ch_F) then Some (c - ch_A + 10)
        else None in
      match digit with
      | Some d =>
          let n := n * 16 + d in
          if big <=? n then (0, i, false) else xtoi_loop s' n (S i)
      | None => stop
      end
  | [] => stop
  end.

Definition xtoi (s : list byte) : Z * nat * bool := xtoi_loop s 0 0.

(** [v4InV6Prefix] and [IPv4(a, b, c, d)]: the 16-byte form of an IPv4 address. *)
Definition v4InV6Prefix : list byte := [0; 0; 0; 0; 0; 0; 0; 0; 0; 0; 0xff; 0xff].

Definition IPv4 (a b c d : byte) : IP := v4InV6Prefix ++ [a; b; c; d].

(** [parseIPv4]: the loop [for i := 0; i < IPv4len; i++], with [k] iterations left
    ([i = IPv4len - k]). Returns the rest of the string and the octets. *)
Fixpoint parseIPv4_loop (k : nat) (s : list byte) (p : list byte)
  : option (list byte * list byte) :=
  match k with
  | O => Some (s, p)
  | S k' =>
      let i := (IPv4len - S k')%nat in
      if len s =? 0 then None
      else
        let sep :=
          if (0 <? i)%nat then
            if at_ s 0 =? ch_dot then Some (drop 1 s) else None
          else Some s in
        match sep with
        | None => None
        | Some s =>
            let '(n, c, ok) := dtoi s in
            if negb ok || (0xFF <? n) then None
            else if (1 <? c)%nat && (at_ s 0 =? ch_0) then None
            else parseIPv4_loop k' (drop c s) (<[i := n mod 256]> p)
        end
  end.

Definition parseIPv4 (s : list byte) : option IP :=
  match parseIPv4_loop IPv4len s [0; 0; 0; 0] with
  | None => None
  | Some (s, p) =>
      if negb (len s =? 0) then None
      else Some (IPv4 (at_ p 0) (at_ p 1) (at_ p 2) (at_ p 3))
  end.

(** The two closing loops of [parseIPv6], which expand the ellipsis:
    [for j := i - 1; j >= ellipsis; j-- { ip[j+n] = ip[j] }] and
    [for j := ellipsis + n - 1; j >= ellipsis; j-- { ip[j] = 0 }].
    [cnt] is the number of iterations left, so [j = e + cnt - 1]. *)
Fixpoint move_up (cnt e n : nat) (ip : IP) : IP :=
  match cnt with
  | O => ip
  | S c => let j := (e + c)%nat in move_up c e n (<[(j + n)%nat := at_ ip j]> ip)
  end.

Fixpoint zero_fill (cnt e : nat) (ip : IP) : IP :=
  match cnt with
  | O => ip
  | S c => let j := (e + c)%nat in zero_fill c e (<[j := 0]> ip)
  end.

(** The main loop of [parseIPv6], [for i < IPv6len]. Every iteration that goes round
    again has advanced [i] by exactly 2, so with [k] groups left [i = IPv6len - 2k]
    and the loop test is [k <> 0]. The result is [None] where the Go code returns
    [nil], and the state [(s, ip, i, ellipsis)] where it leaves the loop. *)
Fixpoint parseIPv6_loop (k : nat) (s : list byte) (ip : IP) (ellipsis : Z)
  : option (list byte * IP * nat * Z) :=
  match k with
  | O => Some (s, ip, IPv6len, ellipsis)
  | S k' =>
      let i := (IPv6len - 2 * S k')%nat in
      let '(n, c, ok) := xtoi s in
      if negb ok || (0xFFFF <? n) then None
      else if (Z.of_nat c <? len s) && (at_ s c =? ch_dot) then
        if (ellipsis <? 0) && negb (Nat.eqb i (IPv6len - IPv4len)) then None
        else if (IPv6len <? i + IPv4len)%nat then None
        else
          match parseIPv4 s with
          | None => None
          | Some ip4 =>
              let ip := <[i := at_ ip4 12]> ip in
              let ip := <[(i + 1)%nat := at_ ip4 13]> ip in
              let ip := <[(i + 2)%nat := at_ ip4 14]> ip in
              let ip := <[(i + 3)%nat := at_ ip4 15]> ip in
              Some ([], ip, (i + IPv4len)%nat, ellipsis)
          end
      else
        let ip := <[i := Z.shiftr n 8 mod 256]> ip in
        let ip := <[(i + 1)%nat := n mod 256]> ip in
        let i := (i + 2)%nat in
        let s := drop c s in
        if len s =? 0 then Some (s, ip, i, ellipsis)
        else if negb (at_ s 0 =? ch_colon) || (len s =? 1) then None
        else
          let s := drop 1 s in
          if at_ s 0 =? ch_colon then
            if 0 <=? ellipsis then None
            else
              let ellipsis := Z.of_nat i in
              let s := drop 1 s in
              if len s =? 0 then Some (s, ip, i, ellipsis)
              else parseIPv6_loop k' s ip ellipsis
          else parseIPv6_loop k' s ip ellipsis
  end.

Definition zeroIP : IP := replicate IPv6len 0.

Definition parseIPv6 (s : list byte) : option IP :=
  let ip := zeroIP in
  let lead := (2 <=? len s) && (at_ s 0 =? ch_colon) && (at_ s 1 =? ch_colon) in
  let ellipsis := if lead then 0 else -1 in
  let s := if lead then drop 2 s else s in
  if lead && (len s =? 0) then Some ip
  else
    match parseIPv6_loop 8 s ip ellipsis with
    | None => None
    | Some (s, ip, i, ellipsis) =>
        if negb (len s =? 0) then None
        else if (i <? IPv6len)%nat then
          if ellipsis <? 0 then None
          else
            let n := (IPv6len - i)%nat in
            let e := Z.to_nat ellipsis in
            let ip := move_up (i - e) e n ip in
            Some (zero_fill n e ip)
        else if 0 <=? ellipsis then None
        else Some ip
    end.

(** [ParseIP]: the first ['.'] or [':'] of the string selects the parser. *)
Fixpoint ParseIP_scan (whole rest : list byte) : option IP :=
  match rest with
  | [] => None
  | c :: rest' =>
      if c =? ch_dot then parseIPv4 whole
      else if c =? ch_colon then parseIPv6 whole
      else ParseIP_scan whole rest'
  end.

Definition ParseIP (s : string) : option IP := ParseIP_scan (bytes s) (bytes s).

(** [isZeros], [To4] and [To16]. The receiver may be [nil] (here [None]), of length 0. *)
Definition isZeros (p : list byte) : bool := forallb (Z.eqb 0) p.

Definition To4 (ip : option IP) : option IP :=
  match ip with
  | None => None
  | Some ip =>
      if Nat.eqb (length ip) IPv4len then Some ip
      else if Nat.eqb (length ip) IPv6len && isZeros (take 10 ip)
                && (at_ ip 10 =? 0xff) && (at_ ip 11 =? 0xff)
      then Some (take 4 (drop 12 ip))
      else None
  end.

Definition To16 (ip : option IP) : option IP :=
  match ip with
  | None => None
  | Some ip =>
      if Nat.eqb (length ip) IPv4len
      then Some (IPv4 (at_ ip 0) (at_ ip 1) (at_ ip 2) (at_ ip 3))
      else if Nat.eqb (length ip) IPv6len then Some ip
      else None
  end.

End net.

(** ** The [[]rune] conversion

    [[]rune(s)] decodes the string as UTF-8, one code point at a time; a byte that
    does not start a well-formed encoding becomes [RuneError] and is one byte wide
    (the tables [first] and [acceptRanges] of [unicode/utf8]). *)
Module utf8.

Definition RuneError : Z := 0xFFFD.

(** For a leading byte at or above [0x80]: the width of the encoding and the range
    accepted for the second byte, or [None] for an invalid leading byte. *)
Definition first (b0 : byte) : option (nat * Z * Z) :=
  if b0 <? 0xC2 then None
  else if b0 <=? 0xDF then Some (2%nat, 0x80, 0xBF)
  else if b0 =? 0xE0 then Some (3%nat, 0xA0, 0xBF)
  else if b0 <=? 0xEC then Some (3%nat, 0x80, 0xBF)
  else if b0 =? 0xED then Some (3%nat, 0x80, 0x9F)
  else if b0 <=? 0xEF then Some (3%nat, 0x80, 0xBF)
  else if b0 =? 0xF0 then Some (4%nat, 0x90, 0xBF)
  else if b0 <=? 0xF3 then Some (4%nat, 0x80, 0xBF)
  else if b0 =? 0xF4 then Some (4%nat, 0x80, 0x8F)
  else None.

Definition cont (b : byte) : bool := (0x80 <=? b) && (b <=? 0xBF).

Fixpoint runes (s : list byte) : list Z :=
  match s with
  | [] => []
  | b0 :: t1 =>
      if b0 <? 0x80 then b0 :: runes t1
      else
        match first b0, t1 with
        | Some (sz, lo, hi), b1 :: t2 =>
            if (b1 <? lo) || (hi <? b1) then RuneError :: runes t1
            else if Nat.eqb sz 2 then
              Z.lor (Z.shiftl (Z.land b0 0x1F) 6) (Z.land b1 0x3F) :: runes t2
            else
              match t2 with
              | b2 :: t3 =>
                  if negb (cont b2) then RuneError :: runes t1
                  else if Nat.eqb sz 3 then
                    Z.lor (Z.shiftl (Z.land b0 0x0F) 12)
                      (Z.lor (Z.shiftl (Z.land b1 0x3F) 6) (Z.land b2 0x3F)) :: runes t3
                  else
                    match t3 with
                    | b3 :: t4 =>
                        if negb (cont b3) then RuneError :: runes t1
                        else
                          Z.lor (Z.shiftl (Z.land b0 0x07) 18)
                            (Z.lor (Z.shiftl (Z.land b1 0x3F) 12)
                               (Z.lor (Z.shiftl (Z.land b2 0x3F) 6) (Z.land b3 0x3F)))
                          :: runes t4
                    | [] => RuneError :: runes t1
                    end
              | [] => RuneError :: runes t1
              end
        | _, _ => RuneError :: runes t1
        end
  end.

End utf8.

(** ** The data model of [parsing.go] *)

(** [TTL] is a [uint32], [Port] and [TimeoutMs] are [uint16]; the code only compares
    them with zero and stores the constants 53 and 5000, so no arithmetic wraps. *)
Record LocalDNSRecord := mkLocalDNSRecord {
  Name : string;
  Type_ : string;
  TTL : Z;
  Target : string
}.

Record Nameserver := mkNameserver {
  IPv4 : string;
  IPv6 : string;
  Port : Z
}.

Record UpstreamNameservers := mkUpstreamNameservers {
  Primary : Nameserver;
  Secondary : Nameserver;
  TimeoutMs : Z
}.

Record Configuration := mkConfiguration {
  LocalRecords : list LocalDNSRecord;
  Upstream : UpstreamNameservers
}.

(** A Go [error] built by [errors.New] is its message. *)
Definition error := string.

(** [fmt.Sprintf] with one [%d] verb for a slice index. *)
Definition fmt_d (k : nat) : string := NilEmpty.string_of_uint (Nat.to_uint k).

Definition PermittedRecordTypes : list string := ["A"; "AAAA"; "CNAME"]%string.

Definition errName (k : nat) : error :=
  String.append "Name for LocalRecord at index "
    (String.append (fmt_d k) " is invalid, should follow pattern domain.name.:").
Definition errType (k : nat) : error :=
  String.append "Type for LocalRecord at index " (String.append (fmt_d k) " is invalid:").
Definition errTTL (k : nat) : error :=
  String.append "TTL for LocalRecord at index " (String.append (fmt_d k) " is invalid").
Definition errTarget (k : nat) : error :=
  String.append "Target for LocalRecord at index "
    (String.append (fmt_d k) " is invalid (check type and target format)").
Definition errNoAddress : error := "IPv4 OR IPv6 of upstream nameserver must be provided".
Definition errIPv4 (v : string) : error :=
  String.append "IPv4 of upstream nameserver is invalid: " v.
Definition errIPv6 (v : string) : error :=
  String.append "IPv6 of upstream nameserver is invalid " v.

(** [x == nil] for a value that may be [nil]. *)
Definition isNil {A} (x : option A) : bool :=
  match x with None => true | Some _ => false end.

(** [ValidateNameserver] takes a pointer and writes through it: the model returns the
    endpoint as the call leaves it, next to the error ([None] is [nil]). *)
Definition ValidateNameserver (ns : Nameserver) : Nameserver * option error :=
  let ns :=
    if Port ns =? 0 then mkNameserver (IPv4 ns) (IPv6 ns) 53 else ns in
  if String.eqb (IPv4 ns) "" && String.eqb (IPv6 ns) "" then (ns, Some errNoAddress)
  else if negb (String.eqb (IPv4 ns) "") && isNil (net.ParseIP (IPv4 ns))
  then (ns, Some (errIPv4 (IPv4 ns)))
  else if negb (String.eqb (IPv6 ns) "") && isNil (net.ParseIP (IPv6 ns))
  then (ns, Some (errIPv6 (IPv6 ns)))
  else (ns, None).

(** [isValidType]: the loop over [PermittedRecordTypes]. *)
Fixpoint isValidType_loop (permitted : list string) (parsedType : string) : bool :=
  match permitted with
  | [] => false
  | v :: rest => if String.eqb parsedType v then true else isValidType_loop rest parsedType
  end.

Definition isValidType (parsedType : string) : bool :=
  isValidType_loop PermittedRecordTypes parsedType.

(** The loop [for i := 0; i < len(runes)-1; i++] of [isValidTarget], with [cnt]
    iterations left; [true] when it finds [runes[i+1] == runes[i]]. *)
Fixpoint adjacent_loop (cnt i : nat) (runes : list Z) : bool :=
  match cnt with
  | O => false
  | S cnt' =>
      if at_ runes (i + 1) =? at_ runes i then true else adjacent_loop cnt' (S i) runes
  end.

(** A file handle, as far as this code is concerned: what the decoder reads. *)
Definition File := string.

Section Config.

(** [VALID_FQDN_REGEX] is a constant of the package, declared in another file. What
    the code sees of it is what [regexp.MatchString] does with it: [None] when the
    pattern does not compile, else the predicate that tells which strings it matches. *)
Variable VALID_FQDN_REGEX : option (string -> bool).

(** [os.Open] and [json.Decoder.Decode] into a fresh [Configuration]. *)
Variable os_Open : string -> File + error.
Variable json_Decode : File -> Configuration + error.

(** [regexp.MatchString(VALID_FQDN_REGEX, s)]: the pair [(matched, err)]. *)
Definition MatchString (s : string) : bool * option error :=
  match VALID_FQDN_REGEX with
  | Some re => (re s, None)
  | None => (false, Some "error parsing regexp"%string)
  end.

(** [isValidRecordName]. The fatal log line goes to the logging package, which is
    outside this file; the function then returns [false]. *)
Definition isValidRecordName (name : string) : bool :=
  let '(matched, err) := MatchString name in
  if negb (isNil err) then false else matched.

Definition isValidTarget (parsedType parsedTarget : string) : bool :=
  let runes := utf8.runes (bytes parsedTarget) in
  if String.eqb parsedType "A" then
    negb (isNil (net.To4 (net.ParseIP parsedTarget)))
  else if String.eqb parsedType "AAAA" then
    negb (isNil (net.To16 (net.ParseIP parsedTarget)))
  else if String.eqb parsedType "CNAME" then
    let '(matched, err) := MatchString parsedTarget in
    if negb (isNil err) then false
    else if adjacent_loop (length runes - 1) 0 runes then false
    else matched
  else false.

(** The body of the loop over [config.LocalRecords]: [Some] is the error returned from
    inside the loop. *)
Definition checkRecord (k : nat) (v : LocalDNSRecord) : option error :=
  if negb (isValidRecordName (Name v)) then Some (errName k)
  else if negb (isValidType (Type_ v)) then Some (errType k)
  else if TTL v =? 0 then Some (errTTL k)
  else if negb (isValidTarget (Type_ v) (Target v)) then Some (errTarget k)
  else None.

Fixpoint checkRecords (k : nat) (records : list LocalDNSRecord) : option error :=
  match records with
  | [] => None
  | v :: rest =>
      match checkRecord k v with
      | Some e => Some e
      | None => checkRecords (S k) rest
      end
  end.

(** [LoadConfig] after a successful decode, on the decoded value [config]. The two
    nameservers are validated in place, so the second call and the timeout default see
    the first call's write. *)
Definition validateConfig (config : Configuration) : option Configuration * option error :=
  match checkRecords 0 (LocalRecords config) with
  | Some e => (None, Some e)
  | None =>
      let up := Upstream config in
      let '(primary, err) := ValidateNameserver (Primary up) in
      match err with
      | Some e => (None, Some e)
      | None =>
          let '(secondary, err) := ValidateNameserver (Secondary up) in
          match err with
          | Some e => (None, Some e)
          | None =>
              let timeout := if TimeoutMs up =? 0 then 5000 else TimeoutMs up in
              (Some (mkConfiguration (LocalRecords config)
                       (mkUpstreamNameservers primary secondary timeout)), None)
          end
      end
  end.

(** [LoadConfig]: the pair it returns, a pointer to the configuration (or [nil]) and
    an error (or [nil]). *)
Definition LoadConfig (filePath : string) : option Configuration * option error :=
  match os_Open filePath with
  | inr err => (None, Some err)
  | inl file =>
      match json_Decode file with
      | inr err => (None, Some err)
      | inl config => validateConfig config
      end
  end.

End Config.

(** ** The vocabulary of the specification *)

(** The two characters [ParseIP] looks for. *)
Definition sepChar (c : byte) : bool := (c =? ch_dot) || (c =? ch_colon).

(** An address in 16-byte form is IPv4-mapped when it starts with [v4InV6Prefix],
    that is, when it lies in [::ffff:0:0/96]. *)
Definition isIPv4mapped (ip : list byte) : bool :=
  net.isZeros (take 10 ip) && (at_ ip 10 =? 0xff) && (at_ ip 11 =? 0xff).

(** An IPv4 literal in 4-octet form is a string [parseIPv4] accepts; an IPv6 literal
    is a string [parseIPv6] accepts. *)
Definition isIPv4Literal (t : string) : Prop := net.parseIPv4 (bytes t) <> None.
Definition isIPv6Literal (t : string) : Prop := net.parseIPv6 (bytes t) <> None.

(** A string matches the FQDN grammar when the pattern compiles and matches it. *)
Definition matchesFQDN (re : option (string -> bool)) (s : string) : Prop :=
  MatchString re s = (true, None).

(** No two identical consecutive characters. *)
Definition noAdjacentRepeat (runes : list Z) : Prop :=
  forall (i : nat) (a b : Z), runes !! i = Some a -> runes !! S i = Some b -> a <> b.

(** The endpoint with its port defaulted. *)
Definition defaultPort (ns : Nameserver) : Nameserver :=
  mkNameserver (IPv4 ns) (IPv6 ns) (if Port ns =? 0 then 53 else Port ns).

(** The configuration with its three defaults filled in. *)
Definition normalized (config : Configuration) : Configuration :=
  let up := Upstream config in
  mkConfiguration (LocalRecords config)
    (mkUpstreamNameservers (defaultPort (Primary up)) (defaultPort (Secondary up))
       (if TimeoutMs up =? 0 then 5000 else TimeoutMs up)).

(** A record passes every rule of the loop. *)
Definition recordOK (re : option (string -> bool)) (v : LocalDNSRecord) : bool :=
  isValidRecordName re (Name v) && isValidType (Type_ v) && negb (TTL v =? 0)
  && isValidTarget re (Type_ v) (Target v).

(** An error that names the local record at index [k]. *)
Definition recordError (e : error) (k : nat) : Prop :=
  e = errName k \/ e = errType k \/ e = errTTL k \/ e = errTarget k.

(** The checks of the code that a configuration fails, each with the error the code
    has for it, in the order the code runs them: for each record in sequence
    [isValidRecordName], [isValidType], the TTL test and [isValidTarget], then the
    checks of [ValidateNameserver] on the primary and on the secondary. These lists are
    built from the code's own checks; the violations by the rules of the specification
    are [specViolations] below. *)
Definition recordFailures (re : option (string -> bool)) (k : nat) (v : LocalDNSRecord)
  : list error :=
  (if isValidRecordName re (Name v) then [] else [errName k])
  ++ (if isValidType (Type_ v) then [] else [errType k])
  ++ (if TTL v =? 0 then [errTTL k] else [])
  ++ (if isValidTarget re (Type_ v) (Target v) then [] else [errTarget k]).

Fixpoint recordsFailures (re : option (string -> bool)) (k : nat)
  (records : list LocalDNSRecord) : list error :=
  match records with
  | [] => []
  | v :: rest => recordFailures re k v ++ recordsFailures re (S k) rest
  end.

Definition nameserverFailures (ns : Nameserver) : list error :=
  (if String.eqb (IPv4 ns) "" && String.eqb (IPv6 ns) "" then [errNoAddress] else [])
  ++ (if negb (String.eqb (IPv4 ns) "") && isNil (net.ParseIP (IPv4 ns))
      then [errIPv4 (IPv4 ns)] else [])
  ++ (if negb (String.eqb (IPv6 ns) "") && isNil (net.ParseIP (IPv6 ns))
      then [errIPv6 (IPv6 ns)] else []).

Definition failedChecks (re : option (string -> bool)) (config : Configuration) : list error :=
  recordsFailures re 0 (LocalRecords config)
  ++ nameserverFailures (Primary (Upstream config))
  ++ nameserverFailures (Secondary (Upstream config)).

(** Well-formed records and valid endpoints, in the specification's words. *)
Definition targetWellFormed (re : option (string -> bool)) (ty t : string) : Prop :=
  (ty = "A" /\ isIPv4Literal t)
  \/ (ty = "AAAA" /\ isIPv6Literal t)
  \/ (ty = "CNAME" /\ matchesFQDN re t /\ noAdjacentRepeat (utf8.runes (bytes t))).

Definition recordWellFormed (re : option (string -> bool)) (v : LocalDNSRecord) : Prop :=
  matchesFQDN re (Name v) /\ In (Type_ v) PermittedRecordTypes /\ TTL v <> 0
  /\ targetWellFormed re (Type_ v) (Target v).

Definition nameserverValid (ns : Nameserver) : Prop :=
  (IPv4 ns <> "" \/ IPv6 ns <> "")
  /\ (IPv4 ns <> "" -> net.ParseIP (IPv4 ns) <> None)
  /\ (IPv6 ns <> "" -> net.ParseIP (IPv6 ns) <> None).

(** Modelled from the spec: the FQDN grammar behind [VALID_FQDN_REGEX], whose
    declaration is in another file of the package. Dot-separated labels, each label
    non-empty and made of letters, digits and hyphens, every label followed by a dot
    (the [sub.domain.name.] shape). [n] is the length of the label being read and
    [labels] the number of labels closed so far. *)
Definition labelChar (c : byte) : bool :=
  ((ch_0 <=? c) && (c <=? ch_9)) || ((ch_a <=? c) && (c <=? 122))
  || ((ch_A <=? c) && (c <=? 90)) || (c =? 45).

Fixpoint fqdn_scan (s : list byte) (n labels : nat) : bool :=
  match s with
  | [] => Nat.eqb n 0 && negb (Nat.eqb labels 0)
  | c :: s' =>
      if c =? ch_dot then negb (Nat.eqb n 0) && fqdn_scan s' 0 (S labels)
      else if labelChar c then fqdn_scan s' (S n) labels
      else false
  end.

Definition fqdn_grammar (s : string) : bool := fqdn_scan (bytes s) 0 0.

(** ** Example configurations

    The scenario of the specification, and inputs used to evaluate the code. *)
Definition exampleRecord : LocalDNSRecord := mkLocalDNSRecord "svc.local." "A" 300 "10.0.0.5".

Definition exampleUpstream : UpstreamNameservers :=
  mkUpstreamNameservers (mkNameserver "1.1.1.1" "" 0) (mkNameserver "8.8.8.8" "" 0) 0.

Definition exampleConfig : Configuration := mkConfiguration [exampleRecord] exampleUpstream.

(** A file system with one file, and a decoder that yields [config] from it. *)
Definition oneFile (p : string) : File + error :=
  if String.eqb p "labns.json" then inl "{}" else inr "open: no such file or directory".

Definition decodesTo (config : Configuration) (f : File) : Configuration + error :=
  inl config.

(** A record whose name is not a domain name, one with a zero TTL, one with a type
    outside the permitted set, and an [AAAA] record with a dotted IPv4 target. *)
Definition badNameRecord : LocalDNSRecord := mkLocalDNSRecord "bad name" "A" 1 "1.2.3.4".
Definition zeroTTLRecord : LocalDNSRecord := mkLocalDNSRecord "svc.local." "A" 0 "10.0.0.5".
Definition mxRecord : LocalDNSRecord := mkLocalDNSRecord "svc.local." "MX" 300 "10.0.0.5".
Definition quadARecord : LocalDNSRecord := mkLocalDNSRecord "svc.local." "AAAA" 300 "1.2.3.4".

Definition configOf (records : list LocalDNSRecord) : Configuration :=
  mkConfiguration records exampleUpstream.

(** An endpoint with no address and no port, and one already normalized. *)
Definition emptyNameserver : Nameserver := mkNameserver "" "" 0.
Definition cloudflare : Nameserver := mkNameserver "1.1.1.1" "2606:4700:4700::1111" 0.

(** ** More of the package: the type table, and vocabulary for the further properties *)

(** The wire codes [dnsmessage.TypeA], [dnsmessage.TypeCNAME] and [dnsmessage.TypeAAAA]
    of [golang.org/x/net/dns/dnsmessage] (the DNS type numbers), and [RecordTypeMap]. *)
Definition TypeA : Z := 1.
Definition TypeCNAME : Z := 5.
Definition TypeAAAA : Z := 28.

Definition RecordTypeMap : gmap string Z :=
  <["CNAME" := TypeCNAME]> (<["AAAA" := TypeAAAA]> (<["A" := TypeA]> ∅)).

(** An error of [ValidateNameserver] on the endpoint [ns]. *)
Definition nameserverError (e : error) (ns : Nameserver) : Prop :=
  e = errNoAddress \/ e = errIPv4 (IPv4 ns) \/ e = errIPv6 (IPv6 ns).

(** The four rules of the record loop, and the message of each. *)
Inductive Rule := RuleName | RuleType | RuleTTL | RuleTarget.

Definition errRule (r : Rule) (k : nat) : error :=
  match r with
  | RuleName => errName k
  | RuleType => errType k
  | RuleTTL => errTTL k
  | RuleTarget => errTarget k
  end.

(** A value that fits a Go [byte]. *)
Definition isByte (b : Z) : Prop := 0 <= b < 256.

(** ** The violations of a configuration, by the rules of the specification

    Each rule is stated on the input document, apart from the checks of the code: the
    name rule on the pattern, the type rule on the three permitted strings, the target
    rule on the two literal parsers and on the characters of the string, the endpoint
    rule on the two literal parsers. *)

Definition isSome {A} (x : option A) : bool :=
  match x with Some _ => true | None => false end.

(** The name rule: the FQDN pattern compiles and matches the string. *)
Definition nameRuleOK (re : option (string -> bool)) (s : string) : bool :=
  match re with
  | Some matches => matches s
  | None => false
  end.

(** The type rule: exactly one of ["A"], ["AAAA"], ["CNAME"]. *)
Definition typeRuleOK (ty : string) : bool :=
  String.eqb ty "A" || String.eqb ty "AAAA" || String.eqb ty "CNAME".

(** Two identical consecutive characters somewhere in the sequence. *)
Fixpoint hasAdjacentRepeat (runes : list Z) : bool :=
  match runes with
  | [] => false
  | a :: rest =>
      match rest with
      | [] => false
      | b :: _ => (a =? b) || hasAdjacentRepeat rest
      end
  end.

(** The target rule in the specification's words: an [A] target parses as an IPv4
    literal in 4-octet form, an [AAAA] target parses as an IPv6 literal, a [CNAME]
    target matches the FQDN grammar and has no two identical consecutive characters;
    no target is valid for any other type. *)
Definition targetRuleOK (re : option (string -> bool)) (ty t : string) : bool :=
  if String.eqb ty "A" then isSome (net.parseIPv4 (bytes t))
  else if String.eqb ty "AAAA" then isSome (net.parseIPv6 (bytes t))
  else if String.eqb ty "CNAME" then
    nameRuleOK re t && negb (hasAdjacentRepeat (utf8.runes (bytes t)))
  else false.

(** An IPv6 literal of an IPv4-mapped address. *)
Definition isMappedLiteral (t : string) : bool :=
  match net.parseIPv6 (bytes t) with
  | Some ip => isIPv4mapped ip
  | None => false
  end.

(** The target rule with the [A] case widened to what [To4] takes for an IPv4 address:
    an IPv4 literal in 4-octet form or an IPv6 literal of an IPv4-mapped address. The
    other cases are those of [targetRuleOK]. *)
Definition targetRuleMappedOK (re : option (string -> bool)) (ty t : string) : bool :=
  if String.eqb ty "A" then isSome (net.parseIPv4 (bytes t)) || isMappedLiteral t
  else targetRuleOK re ty t.

(** The endpoint rule: an address that is given parses as an IP literal of either
    family. *)
Definition addressRuleOK (a : string) : bool :=
  isSome (net.parseIPv4 (bytes a)) || isSome (net.parseIPv6 (bytes a)).

(** The violations of one record, of a sequence of records and of an endpoint, each
    with the error that describes it, in document order. [targetOK] is the target rule
    in force. *)
Definition ruleViolations (targetOK : string -> string -> bool)
  (re : option (string -> bool)) (k : nat) (v : LocalDNSRecord) : list error :=
  (if nameRuleOK re (Name v) then [] else [errName k])
  ++ (if typeRuleOK (Type_ v) then [] else [errType k])
  ++ (if TTL v =? 0 then [errTTL k] else [])
  ++ (if targetOK (Type_ v) (Target v) then [] else [errTarget k]).

Fixpoint recordsRuleViolations (targetOK : string -> string -> bool)
  (re : option (string -> bool)) (k : nat) (records : list LocalDNSRecord) : list error :=
  match records with
  | [] => []
  | v :: rest =>
      ruleViolations targetOK re k v ++ recordsRuleViolations targetOK re (S k) rest
  end.

Definition endpointViolations (ns : Nameserver) : list error :=
  (if String.eqb (IPv4 ns) "" && String.eqb (IPv6 ns) "" then [errNoAddress] else [])
  ++ (if negb (String.eqb (IPv4 ns) "") && negb (addressRuleOK (IPv4 ns))
      then [errIPv4 (IPv4 ns)] else [])
  ++ (if negb (String.eqb (IPv6 ns) "") && negb (addressRuleOK (IPv6 ns))
      then [errIPv6 (IPv6 ns)] else []).

Definition documentViolations (targetOK : string -> string -> bool)
  (re : option (string -> bool)) (config : Configuration) : list error :=
  recordsRuleViolations targetOK re 0 (LocalRecords config)
  ++ endpointViolations (Primary (Upstream config))
  ++ endpointViolations (Secondary (Upstream config)).

(** The violations by the specification's rules, and by the rules with the [A] case
    widened. *)
Definition specViolations (re : option (string -> bool)) (config : Configuration)
  : list error :=
  documentViolations (targetRuleOK re) re config.

Definition mappedViolations (re : option (string -> bool)) (config : Configuration)
  : list error :=
  documentViolations (targetRuleMappedOK re) re config.

(** An [A] record whose target is an IPv4-mapped IPv6 literal. *)
Definition mappedARecord : LocalDNSRecord :=
  mkLocalDNSRecord "svc.local." "A" 300 "::ffff:1.2.3.4".

(** ** Properties of the [net] model *)

Module netFacts.
Import net.

Lemma at_cons_0 (c : byte) (s : list byte) : at_ (c :: s) 0 = c.
Proof. reflexivity. Qed.

Lemma at_app_length (pre rest : list byte) : at_ (pre ++ rest) (length pre) = at_ rest 0.
Proof.
  unfold at_. induction pre as [|a pre IH]; simpl; [reflexivity | exact IH].
Qed.

Lemma len_0 (s : list byte) : (len s =? 0) = true <-> s = [].
Proof.
  unfold len. destruct s; simpl; split; intro H; try reflexivity; discriminate.
Qed.

(** The model evaluated on literals. *)
Example ParseIP_dotted : ParseIP "1.2.3.4" = Some (IPv4 1 2 3 4).
Proof. reflexivity. Qed.

Example ParseIP_mapped : ParseIP "::ffff:1.2.3.4" = Some (IPv4 1 2 3 4).
Proof. reflexivity. Qed.

Example ParseIP_colon :
  ParseIP "2001:db8::1" = Some [0x20; 0x01; 0x0d; 0xb8; 0; 0; 0; 0; 0; 0; 0; 0; 0; 0; 0; 1].
Proof. reflexivity. Qed.

Example ParseIP_leading_zero : ParseIP "01.2.3.4" = None.
Proof. reflexivity. Qed.

Example ParseIP_two_ellipses : ParseIP "1::2::3" = None.
Proof. reflexivity. Qed.

Example ParseIP_domain_name : ParseIP "svc.local." = None.
Proof. reflexivity. Qed.

Example runes_multibyte :
  utf8.runes [97; 0xC3; 0xA9; 0xE2; 0x82; 0xAC; 98] = [97; 233; 8364; 98].
Proof. reflexivity. Qed.

Example runes_invalid :
  utf8.runes [0xFF; 0xFE] = [utf8.RuneError; utf8.RuneError].
Proof. reflexivity. Qed.

Ltac zbool :=
  repeat match goal with
  | H : (_ && _) = true |- _ => apply andb_true_iff in H; destruct H
  | H : (_ || _) = false |- _ => apply orb_false_iff in H; destruct H
  | H : negb _ = true |- _ => apply negb_true_iff in H
  | H : negb _ = false |- _ => apply negb_false_iff in H
  | H : (_ <=? _) = true |- _ => apply Z.leb_le in H
  | H : (_ <=? _) = false |- _ => apply Z.leb_gt in H
  | H : (_ <? _) = true |- _ => apply Z.ltb_lt in H
  | H : (_ <? _) = false |- _ => apply Z.ltb_ge in H
  | H : (_ =? _) = true |- _ => apply Z.eqb_eq in H
  | H : (_ =? _) = false |- _ => apply Z.eqb_neq in H
  | H : Nat.eqb _ _ = true |- _ => apply Nat.eqb_eq in H
  | H : Nat.eqb _ _ = false |- _ => apply Nat.eqb_neq in H
  | H : Nat.ltb _ _ = true |- _ => apply Nat.ltb_lt in H
  | H : Nat.ltb _ _ = false |- _ => apply Nat.ltb_ge in H
  end.

Lemma sepChar_false (c : byte) : c <> ch_dot -> c <> ch_colon -> sepChar c = false.
Proof.
  intros H1 H2. unfold sepChar. apply orb_false_iff. split; apply Z.eqb_neq; assumption.
Qed.

(** What [xtoi] consumed is a non-empty run of characters, none of them a separator. *)
Lemma xtoi_loop_ok (s : list byte) : forall n i n' c,
  xtoi_loop s n i = (n', c, true) ->
  exists pre rest, s = pre ++ rest /\ c = (i + length pre)%nat /\ c <> O
                   /\ Forall (fun b => sepChar b = false) pre.
Proof.
  induction s as [|b s IH]; intros n i n' c H; simpl in H.
  - destruct (Nat.eqb i 0) eqn:Ei; inversion H; subst. zbool.
    exists [], []. simpl. repeat split; auto; lia.
  - assert (Hstop : (if Nat.eqb i 0 then (0, i, false) else (n, i, true)) = (n', c, true) ->
              exists pre rest, b :: s = pre ++ rest /\ c = (i + length pre)%nat /\ c <> O
                   /\ Forall (fun b => sepChar b = false) pre).
    { intro Hs. destruct (Nat.eqb i 0) eqn:Ei; inversion Hs; subst. zbool.
      exists [], (b :: s). simpl. repeat split; auto; lia. }
    assert (Hgo : forall d, b <> ch_dot -> b <> ch_colon ->
              (if big <=? n * 16 + d then (0, i, false) else xtoi_loop s (n * 16 + d) (S i))
                = (n', c, true) ->
              exists pre rest, b :: s = pre ++ rest /\ c = (i + length pre)%nat /\ c <> O
                   /\ Forall (fun b => sepChar b = false) pre).
    { intros d Hd Hc Hs. destruct (big <=? n * 16 + d); [discriminate|].
      destruct (IH _ _ _ _ Hs) as (pre & rest & -> & -> & Hne & Hall).
      exists (b :: pre), rest. simpl. repeat split; auto; try lia.
      constructor; [apply sepChar_false; assumption | assumption]. }
    unfold ch_0, ch_9, ch_a, ch_f, ch_A, ch_F, ch_dot, ch_colon in *.
    destruct ((48 <=? b) && (b <=? 57)) eqn:E1.
    { zbool. apply (Hgo (b - 48)); [lia | lia | exact H]. }
    destruct ((97 <=? b) && (b <=? 102)) eqn:E2.
    { zbool. apply (Hgo (b - 97 + 10)); [lia | lia | exact H]. }
    destruct ((65 <=? b) && (b <=? 70)) eqn:E3.
    { zbool. apply (Hgo (b - 65 + 10)); [lia | lia | exact H]. }
    apply Hstop. exact H.
Qed.

Lemma xtoi_ok (s : list byte) n c :
  xtoi s = (n, c, true) ->
  exists pre rest, s = pre ++ rest /\ c = length pre /\ pre <> []
                   /\ Forall (fun b => sepChar b = false) pre.
Proof.
  intro H. destruct (xtoi_loop_ok _ _ _ _ _ H) as (pre & rest & -> & -> & Hne & Hall).
  exists pre, rest. repeat split; auto. intros ->. simpl in Hne. lia.
Qed.

(** The same for [dtoi]. *)
Lemma dtoi_loop_ok (s : list byte) : forall n i n' c,
  dtoi_loop s n i = (n', c, true) ->
  exists pre rest, s = pre ++ rest /\ c = (i + length pre)%nat /\ c <> O
                   /\ Forall (fun b => sepChar b = false) pre.
Proof.
  induction s as [|b s IH]; intros n i n' c H; simpl in H.
  - destruct (Nat.eqb i 0) eqn:Ei; inversion H; subst. zbool.
    exists [], []. simpl. repeat split; auto; lia.
  - unfold ch_0, ch_9, ch_dot, ch_colon in *.
    destruct ((48 <=? b) && (b <=? 57)) eqn:E1.
    + zbool. destruct (big <=? n * 10 + (b - 48)); [discriminate|].
      destruct (IH _ _ _ _ H) as (pre & rest & -> & -> & Hne & Hall).
      exists (b :: pre), rest. simpl. repeat split; auto; try lia.
      constructor; [apply sepChar_false; unfold ch_dot, ch_colon; lia | assumption].
    + destruct (Nat.eqb i 0) eqn:Ei; inversion H; subst. zbool.
      exists [], (b :: s). simpl. repeat split; auto; lia.
Qed.

Lemma dtoi_ok (s : list byte) n c :
  dtoi s = (n, c, true) ->
  exists pre rest, s = pre ++ rest /\ c = length pre /\ pre <> []
                   /\ Forall (fun b => sepChar b = false) pre.
Proof.
  intro H. destruct (dtoi_loop_ok _ _ _ _ _ H) as (pre & rest & -> & -> & Hne & Hall).
  exists pre, rest. repeat split; auto. intros ->. simpl in Hne. lia.
Qed.

(** [ParseIP]'s scan skips a run without separators. *)
Lemma ParseIP_scan_skip (w pre rest : list byte) :
  Forall (fun b => sepChar b = false) pre ->
  ParseIP_scan w (pre ++ rest) = ParseIP_scan w rest.
Proof.
  induction 1 as [|b pre Hb _ IH]; simpl; [reflexivity|].
  unfold sepChar in Hb. zbool.
  destruct (b =? ch_dot) eqn:E1; [zbool; contradiction|].
  destruct (b =? ch_colon) eqn:E2; [zbool; contradiction|]. exact IH.
Qed.

(** One-step unfoldings of the two parser loops. *)
Lemma parseIPv4_loop_S k s p :
  parseIPv4_loop (S k) s p =
    let i := (IPv4len - S k)%nat in
      if len s =? 0 then None
      else
        let sep :=
          if (0 <? i)%nat then
            if at_ s 0 =? ch_dot then Some (drop 1 s) else None
          else Some s in
        match sep with
        | None => None
        | Some s =>
            let '(n, c, ok) := dtoi s in
            if negb ok || (0xFF <? n) then None
            else if (1 <? c)%nat && (at_ s 0 =? ch_0) then None
            else parseIPv4_loop k (drop c s) (<[i := n mod 256]> p)
        end.
Proof. reflexivity. Qed.

Lemma at_0_eq (s : list byte) (c : byte) :
  (len s =? 0) = false -> (at_ s 0 =? c) = true -> exists rest, s = c :: rest.
Proof.
  destruct s as [|b s]; [discriminate|]. intros _ H. apply Z.eqb_eq in H.
  rewrite at_cons_0 in H. subst. eauto.
Qed.

(** A string [parseIPv4] accepts has a ['.'] before any [':']: [ParseIP] sends it to
    [parseIPv4]. *)
Lemma parseIPv4_first_dot s ip :
  parseIPv4 s = Some ip ->
  exists pre rest, s = pre ++ ch_dot :: rest /\ Forall (fun b => sepChar b = false) pre.
Proof.
  unfold parseIPv4. change IPv4len with 4%nat. rewrite parseIPv4_loop_S.
  cbv zeta. change (0 <? IPv4len - 4)%nat with false. cbv iota.
  destruct (len s =? 0); [discriminate|].
  destruct (dtoi s) as [[n c] ok] eqn:Ed.
  destruct ok; simpl negb; simpl orb; [|discriminate].
  destruct (255 <? n); [discriminate|].
  destruct ((1 <? c)%nat && (at_ s 0 =? ch_0)); [discriminate|].
  destruct (dtoi_ok _ _ _ Ed) as (pre & rest & -> & -> & Hne & Hall).
  rewrite drop_app_length. rewrite parseIPv4_loop_S.
  cbv zeta. change (0 <? IPv4len - 3)%nat with true. cbv iota.
  destruct (len rest =? 0) eqn:El; [discriminate|].
  destruct (at_ rest 0 =? ch_dot) eqn:Edot; [|discriminate].
  intros _. destruct (at_0_eq _ _ El Edot) as [rest' ->]. eauto.
Qed.

Lemma ParseIP_scan_dot w pre rest :
  Forall (fun b => sepChar b = false) pre ->
  ParseIP_scan w (pre ++ ch_dot :: rest) = parseIPv4 w.
Proof. intro H. rewrite ParseIP_scan_skip by assumption. reflexivity. Qed.

Lemma ParseIP_scan_colon w pre rest :
  Forall (fun b => sepChar b = false) pre ->
  ParseIP_scan w (pre ++ ch_colon :: rest) = parseIPv6 w.
Proof. intro H. rewrite ParseIP_scan_skip by assumption. reflexivity. Qed.

Lemma ParseIP_of_parseIPv4 (s : string) ip :
  parseIPv4 (bytes s) = Some ip -> ParseIP s = Some ip.
Proof.
  intro H. unfold ParseIP.
  destruct (parseIPv4_first_dot _ _ H) as (pre & rest & E & Hall).
  rewrite E at 2. rewrite ParseIP_scan_dot by assumption. exact H.
Qed.

Lemma parseIPv6_loop_S k s ip ellipsis :
  parseIPv6_loop (S k) s ip ellipsis =
      let i := (IPv6len - 2 * S k)%nat in
      let '(n, c, ok) := xtoi s in
      if negb ok || (0xFFFF <? n) then None
      else if (Z.of_nat c <? len s) && (at_ s c =? ch_dot) then
        if (ellipsis <? 0) && negb (Nat.eqb i (IPv6len - IPv4len)) then None
        else if (IPv6len <? i + IPv4len)%nat then None
        else
          match parseIPv4 s with
          | None => None
          | Some ip4 =>
              let ip := <[i := at_ ip4 12]> ip in
              let ip := <[(i + 1)%nat := at_ ip4 13]> ip in
              let ip := <[(i + 2)%nat := at_ ip4 14]> ip in
              let ip := <[(i + 3)%nat := at_ ip4 15]> ip in
              Some ([], ip, (i + IPv4len)%nat, ellipsis)
          end
      else
        let ip := <[i := Z.shiftr n 8 mod 256]> ip in
        let ip := <[(i + 1)%nat := n mod 256]> ip in
        let i := (i + 2)%nat in
        let s := drop c s in
        if len s =? 0 then Some (s, ip, i, ellipsis)
        else if negb (at_ s 0 =? ch_colon) || (len s =? 1) then None
        else
          let s := drop 1 s in
          if at_ s 0 =? ch_colon then
            if 0 <=? ellipsis then None
            else
              let ellipsis := Z.of_nat i in
              let s := drop 1 s in
              if len s =? 0 then Some (s, ip, i, ellipsis)
              else parseIPv6_loop k s ip ellipsis
          else parseIPv6_loop k s ip ellipsis.
Proof. reflexivity. Qed.

(** A string [parseIPv6] accepts has a [':'] before any ['.']: [ParseIP] sends it to
    [parseIPv6]. *)
Lemma parseIPv6_first_colon s ip :
  parseIPv6 s = Some ip ->
  exists pre rest, s = pre ++ ch_colon :: rest /\ Forall (fun b => sepChar b = false) pre.
Proof.
  unfold parseIPv6. cbv zeta.
  destruct ((2 <=? len s) && (at_ s 0 =? ch_colon) && (at_ s 1 =? ch_colon)) eqn:Elead.
  - intros _. zbool. destruct s as [|b s]; [discriminate|].
    rewrite at_cons_0 in *. subst. exists [], s. split; [reflexivity | constructor].
  - simpl andb. cbv iota. rewrite parseIPv6_loop_S. cbv zeta.
    destruct (xtoi s) as [[n c] ok] eqn:Ex.
    destruct ok; simpl negb; simpl orb; [|discriminate].
    destruct (65535 <? n); [discriminate|].
    destruct (xtoi_ok _ _ _ Ex) as (pre & rest & -> & -> & Hne & Hall).
    rewrite at_app_length, drop_app_length.
    destruct ((Z.of_nat (length pre) <? len (pre ++ rest)) && (at_ rest 0 =? ch_dot)).
    + discriminate.
    + destruct (len rest =? 0) eqn:El.
      * rewrite El. simpl negb. cbv iota.
        change (IPv6len - 2 * 8 + 2 <? IPv6len)%nat with true.
        change (-1 <? 0) with true. cbv iota. discriminate.
      * destruct (at_ rest 0 =? ch_colon) eqn:Ec; simpl negb; simpl orb; [|discriminate].
        intros _. destruct (at_0_eq _ _ El Ec) as [rest' ->]. eauto.
Qed.

Lemma ParseIP_of_parseIPv6 (s : string) ip :
  parseIPv6 (bytes s) = Some ip -> ParseIP s = Some ip.
Proof.
  intro H. unfold ParseIP.
  destruct (parseIPv6_first_colon _ _ H) as (pre & rest & E & Hall).
  rewrite E at 2. rewrite ParseIP_scan_colon by assumption. exact H.
Qed.

Lemma ParseIP_inv (s : string) ip :
  ParseIP s = Some ip -> parseIPv4 (bytes s) = Some ip \/ parseIPv6 (bytes s) = Some ip.
Proof.
  unfold ParseIP. generalize (bytes s) at 1 3 4. generalize (bytes s).
  intros rest w. induction rest as [|b rest IH]; simpl; [discriminate|].
  destruct (b =? ch_dot); [auto|]. destruct (b =? ch_colon); auto.
Qed.

(** [ParseIP] returns [nil] or a 16-byte address. *)
Lemma move_up_length cnt : forall e n ip, length (move_up cnt e n ip) = length ip.
Proof.
  induction cnt as [|c IH]; intros e n ip; simpl; [reflexivity|].
  rewrite IH. apply length_insert.
Qed.

Lemma zero_fill_length cnt : forall e ip, length (zero_fill cnt e ip) = length ip.
Proof.
  induction cnt as [|c IH]; intros e ip; simpl; [reflexivity|].
  rewrite IH. apply length_insert.
Qed.

Lemma parseIPv6_loop_length k : forall s ip e s' ip' i' e',
  parseIPv6_loop k s ip e = Some (s', ip', i', e') -> length ip' = length ip.
Proof.
  induction k as [|k IH]; intros s ip e s' ip' i' e'.
  - simpl. intros [= <- <- <- <-]. reflexivity.
  - rewrite parseIPv6_loop_S. cbv zeta.
    destruct (xtoi s) as [[n c] ok].
    repeat match goal with
    | |- context [if ?x then _ else _] => destruct x
    | |- context [match parseIPv4 ?x with _ => _ end] => destruct (parseIPv4 x)
    end; try discriminate;
    try (intros [= <- <- <- <-]; rewrite ?length_insert; reflexivity);
    try (intro H; apply IH in H; rewrite H, ?length_insert; reflexivity).
Qed.

Lemma parseIPv6_length s ip : parseIPv6 s = Some ip -> length ip = IPv6len.
Proof.
  unfold parseIPv6. cbv zeta.
  destruct (_ && (len _ =? 0)).
  - intros [= <-]. reflexivity.
  - destruct (parseIPv6_loop _ _ _ _) as [[[[s' ip'] i'] e']|] eqn:E; [|discriminate].
    apply parseIPv6_loop_length in E.
    repeat match goal with
    | |- context [if ?x then _ else _] => destruct x
    end; try discriminate; intros [= <-];
    rewrite ?zero_fill_length, ?move_up_length, E; reflexivity.
Qed.

Lemma parseIPv4_shape s ip : parseIPv4 s = Some ip -> exists a b c d, ip = IPv4 a b c d.
Proof.
  unfold parseIPv4. destruct (parseIPv4_loop _ _ _) as [[s' p]|]; [|discriminate].
  destruct (negb _); [discriminate|]. intros [= <-]. eauto.
Qed.

Lemma ParseIP_length (s : string) ip : ParseIP s = Some ip -> length ip = IPv6len.
Proof.
  intro H. destruct (ParseIP_inv _ _ H) as [H4|H6].
  - destruct (parseIPv4_shape _ _ H4) as (a & b & c & d & ->). reflexivity.
  - eapply parseIPv6_length; eassumption.
Qed.

Lemma To4_16 ip : length ip = IPv6len -> isNil (To4 (Some ip)) = negb (isIPv4mapped ip).
Proof.
  intro H. unfold To4, isIPv4mapped. rewrite H. simpl Nat.eqb. cbv iota. simpl andb.
  destruct (isZeros (take 10 ip) && (at_ ip 10 =? 255) && (at_ ip 11 =? 255)); reflexivity.
Qed.

Lemma To16_16 ip : length ip = IPv6len -> To16 (Some ip) = Some ip.
Proof. intro H. unfold To16. rewrite H. reflexivity. Qed.

Lemma IPv4_mapped a b c d : isIPv4mapped (IPv4 a b c d) = true.
Proof. reflexivity. Qed.

End netFacts.

(** ** Properties of the validation functions *)

Import netFacts.

Section ConfigFacts.
Variable re : option (string -> bool).

(** [isValidTarget] case by case. *)
Lemma isValidTarget_A (t : string) :
  isValidTarget re "A" t = negb (isNil (net.To4 (net.ParseIP t))).
Proof. reflexivity. Qed.

Lemma isValidTarget_AAAA (t : string) :
  isValidTarget re "AAAA" t = negb (isNil (net.To16 (net.ParseIP t))).
Proof. reflexivity. Qed.

Lemma isValidTarget_A_iff (t : string) :
  isValidTarget re "A" t = true <->
  exists ip, net.ParseIP t = Some ip /\ isIPv4mapped ip = true.
Proof.
  rewrite isValidTarget_A. destruct (net.ParseIP t) as [ip|] eqn:E.
  - rewrite To4_16 by (eapply ParseIP_length; eassumption).
    rewrite negb_involutive. split.
    + intro H. exists ip. auto.
    + intros (ip' & [= <-] & H). exact H.
  - simpl. split; [discriminate | intros (ip & [=] & _)].
Qed.

Lemma isValidTarget_AAAA_iff (t : string) :
  isValidTarget re "AAAA" t = true <-> net.ParseIP t <> None.
Proof.
  rewrite isValidTarget_AAAA. destruct (net.ParseIP t) as [ip|] eqn:E.
  - rewrite To16_16 by (eapply ParseIP_length; eassumption). simpl. split; [discriminate | reflexivity].
  - simpl. split; [discriminate | congruence].
Qed.

(** The loop of [isValidTarget] finds a repeat exactly when there is one. *)
Lemma adjacent_loop_true (runes : list Z) (cnt : nat) : forall i,
  adjacent_loop cnt i runes = true <->
  exists j, (i <= j < i + cnt)%nat /\ at_ runes (j + 1) = at_ runes j.
Proof.
  induction cnt as [|cnt IH]; intro i; simpl.
  - split; [discriminate | intros (j & Hj & _); lia].
  - destruct (at_ runes (i + 1) =? at_ runes i) eqn:E.
    + split; [|reflexivity]. intros _. exists i. apply Z.eqb_eq in E. split; [lia | exact E].
    + rewrite IH. apply Z.eqb_neq in E. split.
      * intros (j & Hj & Heq). exists j. split; [lia | exact Heq].
      * intros (j & Hj & Heq). exists j. split; [|exact Heq].
        destruct (Nat.eq_dec j i) as [->|]; [contradiction | lia].
Qed.

Lemma adjacent_loop_false (runes : list Z) :
  adjacent_loop (length runes - 1) 0 runes = false <-> noAdjacentRepeat runes.
Proof.
  rewrite <- not_true_iff_false, adjacent_loop_true. unfold noAdjacentRepeat, at_. split.
  - intros H i a b Ha Hb Hab. apply H. exists i.
    assert (S i < length runes)%nat by (apply lookup_lt_is_Some; eauto).
    split; [lia|]. rewrite !nth_lookup. replace (i + 1)%nat with (S i) by lia.
    rewrite Ha, Hb. simpl. congruence.
  - intros H (j & Hj & Heq).
    destruct (lookup_lt_is_Some_2 runes j) as [a Ha]; [lia|].
    destruct (lookup_lt_is_Some_2 runes (S j)) as [b Hb]; [lia|].
    apply (H j a b Ha Hb). rewrite !nth_lookup in Heq.
    replace (j + 1)%nat with (S j) in Heq by lia. rewrite Ha, Hb in Heq. simpl in Heq. congruence.
Qed.

Lemma isValidTarget_CNAME_iff (t : string) :
  isValidTarget re "CNAME" t = true <->
  matchesFQDN re t /\ noAdjacentRepeat (utf8.runes (bytes t)).
Proof.
  rewrite <- adjacent_loop_false. unfold isValidTarget, matchesFQDN, MatchString.
  simpl String.eqb. cbv iota.
  destruct re as [m|]; simpl.
  - destruct (adjacent_loop _ _ _); destruct (m t); split; intros; try discriminate;
      intuition congruence.
  - split; [discriminate | intros [[=] _]].
Qed.

Lemma isValidType_iff (ty : string) :
  isValidType ty = true <-> In ty PermittedRecordTypes.
Proof.
  unfold isValidType. induction PermittedRecordTypes as [|v l IH]; simpl.
  - split; [discriminate | contradiction].
  - destruct (String.eqb ty v) eqn:E.
    + apply String.eqb_eq in E. split; auto.
    + apply String.eqb_neq in E. rewrite IH. split; [auto | intros [H|H]; congruence].
Qed.

Lemma isValidTarget_other (ty t : string) :
  ty <> "A" -> ty <> "AAAA" -> ty <> "CNAME" -> isValidTarget re ty t = false.
Proof.
  intros H1 H2 H3. unfold isValidTarget.
  apply String.eqb_neq in H1, H2, H3. rewrite H1, H2, H3. reflexivity.
Qed.


(** [ValidateNameserver]: the endpoint it leaves and the error it returns. *)
Lemma ValidateNameserver_fst (ns : Nameserver) :
  fst (ValidateNameserver ns) = defaultPort ns.
Proof.
  unfold ValidateNameserver, defaultPort. destruct ns as [a b p]. simpl.
  destruct (p =? 0); simpl;
    repeat match goal with |- context [if ?c then _ else _] => destruct c end; reflexivity.
Qed.

Lemma ValidateNameserver_snd (ns : Nameserver) :
  snd (ValidateNameserver ns) = head (nameserverFailures ns).
Proof.
  unfold ValidateNameserver, nameserverFailures. destruct ns as [a b p]. simpl.
  destruct (p =? 0); simpl;
    repeat match goal with |- context [if ?c then _ else _] => destruct c; simpl end;
    reflexivity.
Qed.

Lemma ValidateNameserver_eq (ns : Nameserver) :
  ValidateNameserver ns = (defaultPort ns, head (nameserverFailures ns)).
Proof.
  rewrite <- ValidateNameserver_fst, <- ValidateNameserver_snd. apply surjective_pairing.
Qed.

(** The checks return the head of the list of failed checks. *)
Lemma head_app {A} (l1 l2 : list A) :
  head (l1 ++ l2) = match head l1 with Some x => Some x | None => head l2 end.
Proof. destruct l1; reflexivity. Qed.

Lemma checkRecord_head (k : nat) (v : LocalDNSRecord) :
  checkRecord re k v = head (recordFailures re k v).
Proof.
  unfold checkRecord, recordFailures.
  destruct (isValidRecordName re (Name v)); [|reflexivity].
  destruct (isValidType (Type_ v)); [|reflexivity].
  destruct (TTL v =? 0); [reflexivity|].
  destruct (isValidTarget re (Type_ v) (Target v)); reflexivity.
Qed.

Lemma checkRecords_head (records : list LocalDNSRecord) : forall k,
  checkRecords re k records = head (recordsFailures re k records).
Proof.
  induction records as [|v rest IH]; intro k; simpl; [reflexivity|].
  rewrite head_app, <- checkRecord_head, <- IH. reflexivity.
Qed.

Lemma validateConfig_eq (config : Configuration) :
  validateConfig re config =
    match head (failedChecks re config) with
    | Some e => (None, Some e)
    | None => (Some (normalized config), None)
    end.
Proof.
  unfold validateConfig, failedChecks, normalized.
  rewrite !head_app, <- checkRecords_head.
  destruct (checkRecords re 0 (LocalRecords config)); [reflexivity|].
  rewrite !ValidateNameserver_eq.
  destruct (head (nameserverFailures (Primary (Upstream config)))); [reflexivity|].
  destruct (head (nameserverFailures (Secondary (Upstream config)))); reflexivity.
Qed.

Lemma checkRecord_None (k : nat) (v : LocalDNSRecord) :
  checkRecord re k v = None <-> recordOK re v = true.
Proof.
  unfold checkRecord, recordOK.
  destruct (isValidRecordName re (Name v)); simpl; [|split; discriminate].
  destruct (isValidType (Type_ v)); simpl; [|split; discriminate].
  destruct (TTL v =? 0); simpl; [split; discriminate|].
  destruct (isValidTarget re (Type_ v) (Target v)); simpl; split; congruence.
Qed.

Lemma checkRecord_Some (k : nat) (v : LocalDNSRecord) (e : error) :
  checkRecord re k v = Some e -> recordError e k.
Proof.
  unfold checkRecord, recordError.
  repeat match goal with |- context [if ?c then _ else _] => destruct c end;
    intros [= <-]; auto.
Qed.

(** The loop stops at the first record that fails a rule. *)
Lemma checkRecords_fail (records : list LocalDNSRecord) : forall k0 k r,
  records !! k = Some r -> recordOK re r = false ->
  exists j rj e, (j <= k)%nat /\ records !! j = Some rj
    /\ checkRecord re (k0 + j) rj = Some e
    /\ checkRecords re k0 records = Some e
    /\ (forall j' r', (j' < j)%nat -> records !! j' = Some r' -> recordOK re r' = true).
Proof.
  induction records as [|v rest IH]; intros k0 k r Hk Hr; [discriminate|].
  simpl. destruct (checkRecord re k0 v) as [e|] eqn:Ev.
  - exists O, v, e. rewrite Nat.add_0_r. repeat split; auto; [lia | intros; lia].
  - destruct k as [|k]; simpl in Hk.
    + injection Hk as ->. apply checkRecord_None in Ev. congruence.
    + destruct (IH (S k0) k r Hk Hr) as (j & rj & e & Hj & Hlk & Hc & Hcs & Hbefore).
      exists (S j), rj, e. replace (k0 + S j)%nat with (S k0 + j)%nat by lia.
      repeat split; auto; [lia|].
      intros [|j'] r' Hlt Hl; simpl in Hl.
      * injection Hl as <-. apply (checkRecord_None k0). exact Ev.
      * apply (Hbefore j'); [lia | exact Hl].
Qed.

Lemma checkRecords_None (records : list LocalDNSRecord) : forall k,
  checkRecords re k records = None <-> Forall (fun v => recordOK re v = true) records.
Proof.
  induction records as [|v rest IH]; intro k; simpl.
  - split; [constructor | reflexivity].
  - destruct (checkRecord re k v) eqn:E.
    + split; [discriminate|]. intro H. inversion H; subst.
      apply (checkRecord_None k) in H2. congruence.
    + apply checkRecord_None in E. rewrite IH. split.
      * intro. constructor; assumption.
      * intro H. inversion H; assumption.
Qed.

End ConfigFacts.

(** ** The claims *)

Lemma LoadConfig_decoded re open dec path f config :
  open path = inl f -> dec f = inl config ->
  LoadConfig re open dec path = validateConfig re config.
Proof. intros Ho Hd. unfold LoadConfig. rewrite Ho, Hd. reflexivity. Qed.

Lemma LoadConfig_success re open dec path config' :
  LoadConfig re open dec path = (Some config', None) ->
  exists f config, open path = inl f /\ dec f = inl config
                   /\ validateConfig re config = (Some config', None).
Proof.
  unfold LoadConfig. destruct (open path) as [f|e]; [|discriminate].
  destruct (dec f) as [config|e] eqn:Ed; [|discriminate]. intro H.
  exists f, config. split; [reflexivity | split; [exact Ed | exact H]].
Qed.

(** Every dotted IPv4 literal passes as an [AAAA] target. *)
Lemma isValidTarget_AAAA_IPv4Literal re (t : string) :
  isIPv4Literal t -> isValidTarget re "AAAA" t = true.
Proof.
  unfold isIPv4Literal. intro H. apply isValidTarget_AAAA_iff.
  destruct (net.parseIPv4 (bytes t)) as [ip|] eqn:E; [|contradiction].
  rewrite (ParseIP_of_parseIPv4 _ _ E). discriminate.
Qed.

(** C1 (the code departs from the claim): an [AAAA] record whose target is the
    IPv4-only literal ["1.2.3.4"] passes target validation, whatever the FQDN pattern,
    and [LoadConfig] returns the configuration that holds it. The literal is accepted
    by [parseIPv4] and refused by [parseIPv6]. *)
Theorem C1_AAAA_accepts_IPv4_only_literal :
  forall re : option (string -> bool),
    isIPv4Literal "1.2.3.4" /\ ~ isIPv6Literal "1.2.3.4"
    /\ isValidTarget re "AAAA" "1.2.3.4" = true
    /\ LoadConfig (Some fqdn_grammar) oneFile (decodesTo (configOf [quadARecord])) "labns.json"
       = (Some (normalized (configOf [quadARecord])), None).
Proof.
  intro re. split; [|split; [|split]].
  - unfold isIPv4Literal. vm_compute. discriminate.
  - unfold isIPv6Literal. vm_compute. intro H. apply H. reflexivity.
  - apply isValidTarget_AAAA_IPv4Literal. unfold isIPv4Literal. vm_compute. discriminate.
  - vm_compute. reflexivity.
Qed.

(** C2, counterexample: on an endpoint with no address and a zero port
    [ValidateNameserver] returns an error and has set the port to 53. *)
Lemma C2_counterexample :
  snd (ValidateNameserver emptyNameserver) = Some errNoAddress
  /\ fst (ValidateNameserver emptyNameserver) <> emptyNameserver
  /\ Port (fst (ValidateNameserver emptyNameserver)) = 53.
Proof. vm_compute. split; [reflexivity | split; [discriminate | reflexivity]]. Qed.

(** C2, amended: [ValidateNameserver] sets a zero port to 53 before any check, hence
    on every path, error returns included; it never changes the two addresses and it
    leaves a nonzero port as it is. *)
Theorem C2_port_defaulted_on_every_path :
  forall ns : Nameserver,
    IPv4 (fst (ValidateNameserver ns)) = IPv4 ns
    /\ IPv6 (fst (ValidateNameserver ns)) = IPv6 ns
    /\ Port (fst (ValidateNameserver ns)) = (if Port ns =? 0 then 53 else Port ns).
Proof. intro ns. rewrite ValidateNameserver_fst. repeat split. Qed.

(** C3, counterexample: the IPv4-mapped IPv6 literal ["::ffff:1.2.3.4"] is no IPv4
    literal, is an IPv6 literal, and passes as an [A] target. *)
Lemma C3_counterexample :
  ~ isIPv4Literal "::ffff:1.2.3.4" /\ isIPv6Literal "::ffff:1.2.3.4"
  /\ isValidTarget None "A" "::ffff:1.2.3.4" = true.
Proof.
  split; [|split].
  - unfold isIPv4Literal. vm_compute. intro H. apply H. reflexivity.
  - unfold isIPv6Literal. vm_compute. discriminate.
  - vm_compute. reflexivity.
Qed.

(** C3, amended: an [A] target passes only if it is an IPv4 literal in 4-octet form or
    an IPv6 literal of an IPv4-mapped address; every IPv6 literal of any other address
    is rejected. *)
Theorem C3_A_target :
  forall (re : option (string -> bool)) (t : string),
    (isValidTarget re "A" t = true ->
     isIPv4Literal t
     \/ exists ip, net.parseIPv6 (bytes t) = Some ip /\ isIPv4mapped ip = true)
    /\ (forall ip, net.parseIPv6 (bytes t) = Some ip -> isIPv4mapped ip = false ->
        isValidTarget re "A" t = false).
Proof.
  intros re t. split.
  - intro H. apply isValidTarget_A_iff in H. destruct H as (ip & Hp & Hm).
    destruct (ParseIP_inv _ _ Hp) as [H4|H6].
    + left. unfold isIPv4Literal. congruence.
    + right. eauto.
  - intros ip H6 Hm. apply not_true_is_false. intro H.
    apply isValidTarget_A_iff in H. destruct H as (ip' & Hp & Hm').
    rewrite (ParseIP_of_parseIPv6 _ _ H6) in Hp. congruence.
Qed.

Lemma C3_A_target_witness :
  (isIPv4Literal "10.0.0.5"
   \/ exists ip, net.parseIPv6 (bytes "10.0.0.5") = Some ip /\ isIPv4mapped ip = true)
  /\ isValidTarget None "A" "2001:db8::1" = false.
Proof.
  split.
  - apply (proj1 (C3_A_target None "10.0.0.5")). vm_compute. reflexivity.
  - apply (proj2 (C3_A_target None "2001:db8::1")
             [32; 1; 13; 184; 0; 0; 0; 0; 0; 0; 0; 0; 0; 0; 0; 1]).
    + vm_compute. reflexivity.
    + vm_compute. reflexivity.
Defined.

(** The checks of the code against the rules. *)
Lemma isValidRecordName_rule re (s : string) : isValidRecordName re s = nameRuleOK re s.
Proof. destruct re; reflexivity. Qed.

Lemma isValidType_rule (ty : string) : isValidType ty = typeRuleOK ty.
Proof.
  unfold isValidType, typeRuleOK. simpl.
  destruct (String.eqb ty "A"); [reflexivity|].
  destruct (String.eqb ty "AAAA"); [reflexivity|].
  destruct (String.eqb ty "CNAME"); reflexivity.
Qed.

Lemma noAdjacentRepeat_cons (a b : Z) (rest : list Z) :
  noAdjacentRepeat (a :: b :: rest) <-> a <> b /\ noAdjacentRepeat (b :: rest).
Proof.
  unfold noAdjacentRepeat. split.
  - intro H. split.
    + apply (H O a b); reflexivity.
    + intros i x y Hx Hy. apply (H (S i) x y); assumption.
  - intros [Hab H] [|i] x y Hx Hy.
    + simpl in Hx, Hy. congruence.
    + apply (H i x y); assumption.
Qed.

Lemma hasAdjacentRepeat_false (runes : list Z) :
  hasAdjacentRepeat runes = false <-> noAdjacentRepeat runes.
Proof.
  induction runes as [|a rest IH].
  - split; [|reflexivity]. intros _ i x y Hx. discriminate.
  - destruct rest as [|b rest].
    + split; [|reflexivity]. intros _ [|i] x y Hx Hy; discriminate.
    + rewrite noAdjacentRepeat_cons, <- IH.
      change (hasAdjacentRepeat (a :: b :: rest))
        with ((a =? b) || hasAdjacentRepeat (b :: rest)).
      rewrite orb_false_iff, Z.eqb_neq. reflexivity.
Qed.

Lemma isValidTarget_A_rule re (t : string) :
  isValidTarget re "A" t = isSome (net.parseIPv4 (bytes t)) || isMappedLiteral t.
Proof.
  apply eq_true_iff_eq. rewrite isValidTarget_A_iff, orb_true_iff. unfold isMappedLiteral. split.
  - intros (ip & Hp & Hm). destruct (ParseIP_inv _ _ Hp) as [H4|H6].
    + left. rewrite H4. reflexivity.
    + right. rewrite H6. exact Hm.
  - intros [H|H].
    + destruct (net.parseIPv4 (bytes t)) as [ip|] eqn:E; [|discriminate].
      exists ip. split; [apply ParseIP_of_parseIPv4; exact E|].
      destruct (parseIPv4_shape _ _ E) as (a & b & c & d & ->). reflexivity.
    + destruct (net.parseIPv6 (bytes t)) as [ip|] eqn:E; [|discriminate].
      exists ip. split; [apply ParseIP_of_parseIPv6; exact E | exact H].
Qed.

Lemma ParseIP_rule (a : string) : isNil (net.ParseIP a) = negb (addressRuleOK a).
Proof.
  unfold addressRuleOK. destruct (net.ParseIP a) as [ip|] eqn:Hp; simpl.
  - destruct (ParseIP_inv _ _ Hp) as [H|H]; rewrite H; simpl; [reflexivity|].
    rewrite orb_true_r. reflexivity.
  - destruct (net.parseIPv4 (bytes a)) as [ip|] eqn:E4.
    { rewrite (ParseIP_of_parseIPv4 _ _ E4) in Hp. discriminate. }
    destruct (net.parseIPv6 (bytes a)) as [ip|] eqn:E6.
    { rewrite (ParseIP_of_parseIPv6 _ _ E6) in Hp. discriminate. }
    reflexivity.
Qed.

Lemma isValidTarget_AAAA_rule re (t : string) :
  ~ isIPv4Literal t -> isValidTarget re "AAAA" t = isSome (net.parseIPv6 (bytes t)).
Proof.
  unfold isIPv4Literal. intro H. rewrite isValidTarget_AAAA.
  destruct (net.ParseIP t) as [ip|] eqn:Hp.
  - rewrite To16_16 by (eapply ParseIP_length; eassumption). simpl.
    destruct (ParseIP_inv _ _ Hp) as [H4|H6].
    + exfalso. apply H. rewrite H4. discriminate.
    + rewrite H6. reflexivity.
  - simpl. destruct (net.parseIPv6 (bytes t)) as [ip|] eqn:E6; [|reflexivity].
    rewrite (ParseIP_of_parseIPv6 _ _ E6) in Hp. discriminate.
Qed.

Lemma isValidTarget_CNAME_rule re (t : string) :
  isValidTarget re "CNAME" t
  = nameRuleOK re t && negb (hasAdjacentRepeat (utf8.runes (bytes t))).
Proof.
  apply eq_true_iff_eq.
  rewrite isValidTarget_CNAME_iff, andb_true_iff, negb_true_iff, hasAdjacentRepeat_false.
  unfold matchesFQDN, MatchString. destruct re as [m|]; simpl.
  - split; intros [H1 H2]; (split; [|exact H2]); congruence.
  - split; intros [H1 H2]; discriminate.
Qed.

Lemma isValidTarget_rule re (ty t : string) :
  (ty = "AAAA" -> ~ isIPv4Literal t) ->
  isValidTarget re ty t = targetRuleMappedOK re ty t.
Proof.
  intro H. unfold targetRuleMappedOK, targetRuleOK.
  destruct (String.eqb ty "A") eqn:EA.
  { apply String.eqb_eq in EA. subst ty. apply isValidTarget_A_rule. }
  destruct (String.eqb ty "AAAA") eqn:EAAAA.
  { apply String.eqb_eq in EAAAA. subst ty. apply isValidTarget_AAAA_rule. auto. }
  destruct (String.eqb ty "CNAME") eqn:EC.
  { apply String.eqb_eq in EC. subst ty. apply isValidTarget_CNAME_rule. }
  unfold isValidTarget. rewrite EA, EAAAA, EC. reflexivity.
Qed.

Lemma checkRecord_rule re (k : nat) (v : LocalDNSRecord) :
  (Type_ v = "AAAA" -> ~ isIPv4Literal (Target v)) ->
  checkRecord re k v = head (ruleViolations (targetRuleMappedOK re) re k v).
Proof.
  intro H. unfold checkRecord, ruleViolations.
  rewrite isValidRecordName_rule, isValidType_rule, (isValidTarget_rule _ _ _ H).
  destruct (nameRuleOK re (Name v)); [|reflexivity].
  destruct (typeRuleOK (Type_ v)); [|reflexivity].
  destruct (TTL v =? 0); [reflexivity|].
  destruct (targetRuleMappedOK re (Type_ v) (Target v)); reflexivity.
Qed.

Lemma checkRecords_rule re (records : list LocalDNSRecord) : forall k,
  Forall (fun v => Type_ v = "AAAA" -> ~ isIPv4Literal (Target v)) records ->
  checkRecords re k records = head (recordsRuleViolations (targetRuleMappedOK re) re k records).
Proof.
  induction records as [|v rest IH]; intros k H; simpl; [reflexivity|].
  inversion H as [|? ? Hv Hrest]; subst.
  rewrite head_app, <- (checkRecord_rule _ _ _ Hv), <- (IH _ Hrest). reflexivity.
Qed.

Lemma nameserverFailures_rule (ns : Nameserver) :
  nameserverFailures ns = endpointViolations ns.
Proof.
  unfold nameserverFailures, endpointViolations. rewrite !ParseIP_rule. reflexivity.
Qed.

Lemma validateConfig_rule re (config : Configuration) :
  Forall (fun v => Type_ v = "AAAA" -> ~ isIPv4Literal (Target v)) (LocalRecords config) ->
  validateConfig re config =
    match head (mappedViolations re config) with
    | Some e => (None, Some e)
    | None => (Some (normalized config), None)
    end.
Proof.
  intro H. rewrite validateConfig_eq. unfold failedChecks, mappedViolations, documentViolations.
  rewrite !head_app, <- checkRecords_head, <- (checkRecords_rule _ _ _ H),
    !nameserverFailures_rule. reflexivity.
Qed.

(** C4, counterexample: by the rules of the specification the first violation of the
    records [[mappedARecord; zeroTTLRecord]] is the target of record 0, an [A] target
    that is no IPv4 literal in 4-octet form; [LoadConfig] returns the TTL error of
    record 1. With [mappedARecord] alone the configuration has that violation and
    [LoadConfig] returns no error. *)
Lemma C4_counterexample :
  head (specViolations (Some fqdn_grammar) (configOf [mappedARecord; zeroTTLRecord]))
    = Some (errTarget 0)
  /\ LoadConfig (Some fqdn_grammar) oneFile
       (decodesTo (configOf [mappedARecord; zeroTTLRecord])) "labns.json"
     = (None, Some (errTTL 1))
  /\ errTTL 1 <> errTarget 0
  /\ specViolations (Some fqdn_grammar) (configOf [mappedARecord]) = [errTarget 0]
  /\ snd (LoadConfig (Some fqdn_grammar) oneFile (decodesTo (configOf [mappedARecord]))
            "labns.json") = None.
Proof.
  split; [vm_compute; reflexivity|]. split; [vm_compute; reflexivity|].
  split; [vm_compute; discriminate|]. split; vm_compute; reflexivity.
Qed.

(** The same happens, by the defect of C1, when record 0 is an [AAAA] record with an
    IPv4-only target: its target is the first violation, and [LoadConfig] returns the
    TTL error of record 1. The amended statement leaves such configurations out. *)
Lemma first_violation_missed_for_AAAA :
  head (specViolations (Some fqdn_grammar) (configOf [quadARecord; zeroTTLRecord]))
    = Some (errTarget 0)
  /\ LoadConfig (Some fqdn_grammar) oneFile
       (decodesTo (configOf [quadARecord; zeroTTLRecord])) "labns.json"
     = (None, Some (errTTL 1)).
Proof. split; vm_compute; reflexivity. Qed.

(** C4, amended: for a decoded configuration in which no [AAAA] record has an
    IPv4-only literal as its target, and which has at least one violation, [LoadConfig]
    returns no configuration and one error, the one that describes the first
    violation in document order (each record in sequence, its name, type, TTL, then
    target; then the primary nameserver; then the secondary), an [A] target being
    valid when it is an IPv4 literal in 4-octet form or an IPv6 literal of an
    IPv4-mapped address. *)
Theorem C4_first_violation_mapped_rule :
  forall (re : option (string -> bool)) (open : string -> File + error)
         (dec : File -> Configuration + error) (path : string) (f : File)
         (config : Configuration),
    open path = inl f -> dec f = inl config ->
    Forall (fun v => Type_ v = "AAAA" -> ~ isIPv4Literal (Target v)) (LocalRecords config) ->
    mappedViolations re config <> [] ->
    exists e, head (mappedViolations re config) = Some e
              /\ LoadConfig re open dec path = (None, Some e).
Proof.
  intros re open dec path f config Ho Hd Hq Hv.
  rewrite (LoadConfig_decoded _ _ _ _ _ _ Ho Hd), (validateConfig_rule _ _ Hq).
  destruct (mappedViolations re config) as [|e rest]; [contradiction|].
  exists e. split; reflexivity.
Qed.

Lemma C4_first_violation_mapped_rule_witness :
  exists e,
    head (mappedViolations (Some fqdn_grammar)
            (mkConfiguration [mappedARecord; zeroTTLRecord; badNameRecord]
               (mkUpstreamNameservers emptyNameserver cloudflare 0))) = Some e
    /\ LoadConfig (Some fqdn_grammar) oneFile
         (decodesTo (mkConfiguration [mappedARecord; zeroTTLRecord; badNameRecord]
                       (mkUpstreamNameservers emptyNameserver cloudflare 0)))
         "labns.json" = (None, Some e).
Proof.
  apply (C4_first_violation_mapped_rule (Some fqdn_grammar) oneFile
           (decodesTo (mkConfiguration [mappedARecord; zeroTTLRecord; badNameRecord]
                         (mkUpstreamNameservers emptyNameserver cloudflare 0)))
           "labns.json" "{}").
  - reflexivity.
  - reflexivity.
  - simpl. repeat constructor; simpl; discriminate.
  - vm_compute. discriminate.
Defined.

(** C5: a [CNAME] target passes exactly when it matches the FQDN grammar and no two
    consecutive characters of it are equal; ["aa.example.com."], which the grammar of
    the specification matches, fails under every pattern. *)
Theorem C5_CNAME_target :
  forall (re : option (string -> bool)) (t : string),
    (isValidTarget re "CNAME" t = true <->
     matchesFQDN re t /\ noAdjacentRepeat (utf8.runes (bytes t)))
    /\ matchesFQDN (Some fqdn_grammar) "aa.example.com."
    /\ isValidTarget re "CNAME" "aa.example.com." = false.
Proof.
  intros re t. split; [apply isValidTarget_CNAME_iff | split].
  - vm_compute. reflexivity.
  - destruct re as [m|]; [|reflexivity].
    unfold isValidTarget. simpl String.eqb. cbv iota. unfold MatchString. simpl isNil. simpl negb.
    cbv iota.
    replace (adjacent_loop _ _ _) with true by (vm_compute; reflexivity). reflexivity.
Qed.

(** What the specification calls well-formed and valid passes the checks of the code. *)
Lemma matchesFQDN_isValidRecordName re (s : string) :
  matchesFQDN re s -> isValidRecordName re s = true.
Proof. unfold matchesFQDN, isValidRecordName. intros ->. reflexivity. Qed.

Lemma recordWellFormed_OK re (v : LocalDNSRecord) :
  recordWellFormed re v -> recordOK re v = true.
Proof.
  intros (Hn & Hty & Httl & Ht). unfold recordOK.
  rewrite (matchesFQDN_isValidRecordName _ _ Hn).
  rewrite (proj2 (isValidType_iff _) Hty).
  apply Z.eqb_neq in Httl. rewrite Httl. simpl.
  destruct Ht as [[-> H4]|[[-> H6]|[-> Hc]]].
  - apply isValidTarget_A_iff. unfold isIPv4Literal in H4.
    destruct (net.parseIPv4 (bytes (Target v))) as [ip|] eqn:E; [|contradiction].
    exists ip. split; [apply ParseIP_of_parseIPv4; exact E|].
    destruct (parseIPv4_shape _ _ E) as (a & b & c & d & ->). reflexivity.
  - apply isValidTarget_AAAA_iff. unfold isIPv6Literal in H6.
    destruct (net.parseIPv6 (bytes (Target v))) as [ip|] eqn:E; [|contradiction].
    rewrite (ParseIP_of_parseIPv6 _ _ E). discriminate.
  - apply isValidTarget_CNAME_iff. exact Hc.
Qed.

Lemma nameserverValid_no_failure (ns : Nameserver) :
  nameserverValid ns -> nameserverFailures ns = [].
Proof.
  intros (Hone & H4 & H6). unfold nameserverFailures.
  destruct (String.eqb (IPv4 ns) "") eqn:E4; destruct (String.eqb (IPv6 ns) "") eqn:E6; simpl.
  - apply String.eqb_eq in E4, E6. destruct Hone; contradiction.
  - apply String.eqb_neq in E6. specialize (H6 E6).
    destruct (net.ParseIP (IPv6 ns)); [reflexivity | contradiction].
  - apply String.eqb_neq in E4. specialize (H4 E4).
    destruct (net.ParseIP (IPv4 ns)); [reflexivity | contradiction].
  - apply String.eqb_neq in E4, E6. specialize (H4 E4). specialize (H6 E6).
    destruct (net.ParseIP (IPv4 ns)); [|contradiction].
    destruct (net.ParseIP (IPv6 ns)); [reflexivity | contradiction].
Qed.

(** C6: when every local record is well-formed and both nameservers are valid,
    [LoadConfig] returns the decoded configuration and no error, with [TimeoutMs] set
    to 5000 if it was zero and each port set to 53 if it was zero; nonzero values, the
    addresses and the records are as decoded. *)
Theorem C6_valid_configuration_loads :
  forall (re : option (string -> bool)) (open : string -> File + error)
         (dec : File -> Configuration + error) (path : string) (f : File)
         (config : Configuration),
    open path = inl f -> dec f = inl config ->
    Forall (recordWellFormed re) (LocalRecords config) ->
    nameserverValid (Primary (Upstream config)) ->
    nameserverValid (Secondary (Upstream config)) ->
    LoadConfig re open dec path =
      (Some (mkConfiguration (LocalRecords config)
               (mkUpstreamNameservers
                  (mkNameserver (IPv4 (Primary (Upstream config)))
                     (IPv6 (Primary (Upstream config)))
                     (if Port (Primary (Upstream config)) =? 0 then 53
                      else Port (Primary (Upstream config))))
                  (mkNameserver (IPv4 (Secondary (Upstream config)))
                     (IPv6 (Secondary (Upstream config)))
                     (if Port (Secondary (Upstream config)) =? 0 then 53
                      else Port (Secondary (Upstream config))))
                  (if TimeoutMs (Upstream config) =? 0 then 5000
                   else TimeoutMs (Upstream config)))),
       None).
Proof.
  intros re open dec path f config Ho Hd Hrec Hp Hs.
  rewrite (LoadConfig_decoded _ _ _ _ _ _ Ho Hd). unfold validateConfig.
  assert (Hc : checkRecords re 0 (LocalRecords config) = None).
  { apply checkRecords_None. eapply Forall_impl; [exact Hrec|].
    intros v Hv. apply recordWellFormed_OK. exact Hv. }
  rewrite Hc, !ValidateNameserver_eq.
  rewrite (nameserverValid_no_failure _ Hp), (nameserverValid_no_failure _ Hs).
  reflexivity.
Qed.

Lemma C6_valid_configuration_loads_witness :
  LoadConfig (Some fqdn_grammar) oneFile (decodesTo exampleConfig) "labns.json" =
    (Some (mkConfiguration [exampleRecord]
             (mkUpstreamNameservers (mkNameserver "1.1.1.1" "" 53)
                (mkNameserver "8.8.8.8" "" 53) 5000)),
     None).
Proof.
  apply (C6_valid_configuration_loads (Some fqdn_grammar) oneFile (decodesTo exampleConfig)
           "labns.json" "{}" exampleConfig).
  - reflexivity.
  - reflexivity.
  - constructor; [|constructor]. split; [|split; [|split]].
    + vm_compute. reflexivity.
    + simpl. left. reflexivity.
    + simpl. lia.
    + left. split; [reflexivity|]. unfold isIPv4Literal. vm_compute. discriminate.
  - split; [|split].
    + left. simpl. discriminate.
    + intros _. vm_compute. discriminate.
    + simpl. intro H. contradiction.
  - split; [|split].
    + left. simpl. discriminate.
    + intros _. vm_compute. discriminate.
    + simpl. intro H. contradiction.
Defined.

(** C7: an endpoint that passed [ValidateNameserver] has a nonzero port, and a second
    call on it returns [nil] again and leaves its addresses and port as they are. *)
Theorem C7_ValidateNameserver_idempotent :
  forall ns : Nameserver,
    snd (ValidateNameserver ns) = None ->
    Port (fst (ValidateNameserver ns)) <> 0
    /\ ValidateNameserver (fst (ValidateNameserver ns)) = (fst (ValidateNameserver ns), None).
Proof.
  intros ns H. rewrite ValidateNameserver_snd in H. rewrite ValidateNameserver_fst. split.
  - unfold defaultPort. simpl. destruct (Port ns =? 0) eqn:E; [lia | apply Z.eqb_neq in E; exact E].
  - rewrite ValidateNameserver_eq. f_equal.
    + unfold defaultPort. simpl. destruct (Port ns =? 0) eqn:E; [reflexivity|]. rewrite E. reflexivity.
    + exact H.
Qed.

Lemma C7_ValidateNameserver_idempotent_witness :
  Port (fst (ValidateNameserver cloudflare)) <> 0
  /\ ValidateNameserver (fst (ValidateNameserver cloudflare))
     = (fst (ValidateNameserver cloudflare), None).
Proof. apply (C7_ValidateNameserver_idempotent cloudflare). vm_compute. reflexivity. Defined.

(** A configuration with a record that fails a rule is rejected with the error of the
    first such record. *)
Lemma validateConfig_record_fails re (config : Configuration) (k : nat) (r : LocalDNSRecord) :
  LocalRecords config !! k = Some r -> recordOK re r = false ->
  exists e j rj,
    validateConfig re config = (None, Some e)
    /\ (j <= k)%nat /\ LocalRecords config !! j = Some rj
    /\ checkRecord re j rj = Some e
    /\ (forall j' r', (j' < j)%nat -> LocalRecords config !! j' = Some r' ->
        recordOK re r' = true).
Proof.
  intros Hk Hr.
  destruct (checkRecords_fail re _ O _ _ Hk Hr) as (j & rj & e & Hj & Hlk & Hc & Hcs & Hb).
  exists e, j, rj. unfold validateConfig. rewrite Hcs. simpl in Hc. auto 10.
Qed.

Lemma first_failure_at re (config : Configuration) (k j : nat) (rj : LocalDNSRecord) (e : error) :
  (j <= k)%nat -> LocalRecords config !! j = Some rj -> checkRecord re j rj = Some e ->
  (forall j' r', (j' < k)%nat -> LocalRecords config !! j' = Some r' -> recordOK re r' = true) ->
  j = k.
Proof.
  intros Hj Hlk Hc Hbefore. destruct (Nat.eq_dec j k) as [|Hne]; [assumption|].
  assert (Hok : recordOK re rj = true) by (apply (Hbefore j); [lia | exact Hlk]).
  apply (checkRecord_None re j) in Hok. congruence.
Qed.

(** C8, counterexample: the record at index 1 has a zero TTL, yet the error names the
    record at index 0, whose name is invalid, and not the record at index 1. *)
Lemma C8_counterexample :
  LocalRecords (configOf [badNameRecord; zeroTTLRecord]) !! 1%nat = Some zeroTTLRecord
  /\ TTL zeroTTLRecord = 0
  /\ LoadConfig (Some fqdn_grammar) oneFile (decodesTo (configOf [badNameRecord; zeroTTLRecord]))
       "labns.json" = (None, Some (errName 0))
  /\ ~ recordError (errName 0) 1.
Proof.
  split; [reflexivity | split; [reflexivity | split; [vm_compute; reflexivity|]]].
  unfold recordError. vm_compute. intros [H|[H|[H|H]]]; discriminate.
Qed.

(** C8, amended: a configuration with a zero-TTL record is always rejected, with the
    error of the first record that fails a rule, which lies at or before the zero-TTL
    record; when every earlier record passes, the error names the zero-TTL record
    itself, whatever its other fields. *)
Theorem C8_zero_TTL_rejected :
  forall (re : option (string -> bool)) (open : string -> File + error)
         (dec : File -> Configuration + error) (path : string) (f : File)
         (config : Configuration) (k : nat) (r : LocalDNSRecord),
    open path = inl f -> dec f = inl config ->
    LocalRecords config !! k = Some r -> TTL r = 0 ->
    exists e j rj,
      LoadConfig re open dec path = (None, Some e)
      /\ (j <= k)%nat /\ LocalRecords config !! j = Some rj /\ recordOK re rj = false
      /\ (forall j' r', (j' < j)%nat -> LocalRecords config !! j' = Some r' ->
          recordOK re r' = true)
      /\ recordError e j
      /\ ((forall j' r', (j' < k)%nat -> LocalRecords config !! j' = Some r' ->
           recordOK re r' = true) ->
          e = errName k \/ e = errType k \/ e = errTTL k).
Proof.
  intros re open dec path f config k r Ho Hd Hk Httl.
  assert (Hr : recordOK re r = false).
  { unfold recordOK. rewrite Httl. simpl. rewrite andb_false_r. reflexivity. }
  destruct (validateConfig_record_fails re config k r Hk Hr)
    as (e & j & rj & Hv & Hj & Hlk & Hc & Hb).
  exists e, j, rj. rewrite (LoadConfig_decoded _ _ _ _ _ _ Ho Hd).
  repeat split; auto.
  - apply not_true_is_false. intro Hok. apply (checkRecord_None re j) in Hok. congruence.
  - eapply checkRecord_Some; eassumption.
  - intro Hbefore.
    assert (j = k) by (eapply first_failure_at; eassumption). subst j.
    assert (rj = r) by congruence. subst rj.
    unfold checkRecord in Hc. rewrite Httl in Hc. simpl in Hc.
    destruct (isValidRecordName re (Name r)); simpl in Hc; [|injection Hc as <-; auto].
    destruct (isValidType (Type_ r)); simpl in Hc; injection Hc as <-; auto.
Qed.

Lemma C8_zero_TTL_rejected_witness :
  exists e j rj,
    LoadConfig (Some fqdn_grammar) oneFile (decodesTo (configOf [exampleRecord; zeroTTLRecord]))
      "labns.json" = (None, Some e)
    /\ (j <= 1)%nat
    /\ LocalRecords (configOf [exampleRecord; zeroTTLRecord]) !! j = Some rj
    /\ recordOK (Some fqdn_grammar) rj = false
    /\ (forall j' r', (j' < j)%nat ->
        LocalRecords (configOf [exampleRecord; zeroTTLRecord]) !! j' = Some r' ->
        recordOK (Some fqdn_grammar) r' = true)
    /\ recordError e j
    /\ ((forall j' r', (j' < 1)%nat ->
         LocalRecords (configOf [exampleRecord; zeroTTLRecord]) !! j' = Some r' ->
         recordOK (Some fqdn_grammar) r' = true) ->
        e = errName 1 \/ e = errType 1 \/ e = errTTL 1).
Proof.
  apply (C8_zero_TTL_rejected (Some fqdn_grammar) oneFile
           (decodesTo (configOf [exampleRecord; zeroTTLRecord])) "labns.json" "{}"
           (configOf [exampleRecord; zeroTTLRecord]) 1 zeroTTLRecord).
  - reflexivity.
  - reflexivity.
  - reflexivity.
  - reflexivity.
Defined.

Lemma isValidType_false (ty : string) :
  ~ In ty PermittedRecordTypes -> isValidType ty = false.
Proof.
  intro H. apply not_true_is_false. intro Ht. apply H. apply isValidType_iff. exact Ht.
Qed.

(** C9, counterexample: the record at index 1 has type ["MX"], yet the error names the
    record at index 0, whose name is invalid, and not the record at index 1. *)
Lemma C9_counterexample :
  LocalRecords (configOf [badNameRecord; mxRecord]) !! 1%nat = Some mxRecord
  /\ ~ In (Type_ mxRecord) PermittedRecordTypes
  /\ LoadConfig (Some fqdn_grammar) oneFile (decodesTo (configOf [badNameRecord; mxRecord]))
       "labns.json" = (None, Some (errName 0))
  /\ ~ recordError (errName 0) 1.
Proof.
  split; [reflexivity | split; [|split; [vm_compute; reflexivity|]]].
  - simpl. intros [H|[H|[H|H]]]; try discriminate. exact H.
  - unfold recordError. vm_compute. intros [H|[H|[H|H]]]; discriminate.
Qed.

(** C9, amended: a configuration with a record whose type is not exactly ["A"],
    ["AAAA"] or ["CNAME"] is always rejected, with the error of the first record that
    fails a rule, which lies at or before that record; when every earlier record
    passes, the error names that record (its name or its type), whatever its target.
    Target validation fails for every type outside the set. *)
Theorem C9_unknown_type_rejected :
  forall (re : option (string -> bool)) (open : string -> File + error)
         (dec : File -> Configuration + error) (path : string) (f : File)
         (config : Configuration) (k : nat) (r : LocalDNSRecord),
    open path = inl f -> dec f = inl config ->
    LocalRecords config !! k = Some r -> ~ In (Type_ r) PermittedRecordTypes ->
    (forall t, isValidTarget re (Type_ r) t = false)
    /\ exists e j rj,
      LoadConfig re open dec path = (None, Some e)
      /\ (j <= k)%nat /\ LocalRecords config !! j = Some rj /\ recordOK re rj = false
      /\ (forall j' r', (j' < j)%nat -> LocalRecords config !! j' = Some r' ->
          recordOK re r' = true)
      /\ recordError e j
      /\ ((forall j' r', (j' < k)%nat -> LocalRecords config !! j' = Some r' ->
           recordOK re r' = true) ->
          e = errName k \/ e = errType k).
Proof.
  intros re open dec path f config k r Ho Hd Hk Hty. split.
  - intro t. apply isValidTarget_other; intro E; apply Hty; rewrite E; simpl; auto.
  - assert (Hr : recordOK re r = false).
    { unfold recordOK. rewrite (isValidType_false _ Hty). rewrite andb_false_r. reflexivity. }
    destruct (validateConfig_record_fails re config k r Hk Hr)
      as (e & j & rj & Hv & Hj & Hlk & Hc & Hb).
    exists e, j, rj. rewrite (LoadConfig_decoded _ _ _ _ _ _ Ho Hd).
    repeat split; auto.
    + apply not_true_is_false. intro Hok. apply (checkRecord_None re j) in Hok. congruence.
    + eapply checkRecord_Some; eassumption.
    + intro Hbefore.
      assert (j = k) by (eapply first_failure_at; eassumption). subst j.
      assert (rj = r) by congruence. subst rj.
      unfold checkRecord in Hc. rewrite (isValidType_false _ Hty) in Hc. simpl in Hc.
      destruct (isValidRecordName re (Name r)); simpl in Hc; injection Hc as <-; auto.
Qed.

Lemma C9_unknown_type_rejected_witness :
  (forall t, isValidTarget (Some fqdn_grammar) (Type_ mxRecord) t = false)
  /\ exists e j rj,
    LoadConfig (Some fqdn_grammar) oneFile (decodesTo (configOf [exampleRecord; mxRecord]))
      "labns.json" = (None, Some e)
    /\ (j <= 1)%nat
    /\ LocalRecords (configOf [exampleRecord; mxRecord]) !! j = Some rj
    /\ recordOK (Some fqdn_grammar) rj = false
    /\ (forall j' r', (j' < j)%nat ->
        LocalRecords (configOf [exampleRecord; mxRecord]) !! j' = Some r' ->
        recordOK (Some fqdn_grammar) r' = true)
    /\ recordError e j
    /\ ((forall j' r', (j' < 1)%nat ->
         LocalRecords (configOf [exampleRecord; mxRecord]) !! j' = Some r' ->
         recordOK (Some fqdn_grammar) r' = true) ->
        e = errName 1 \/ e = errType 1).
Proof.
  apply (C9_unknown_type_rejected (Some fqdn_grammar) oneFile
           (decodesTo (configOf [exampleRecord; mxRecord])) "labns.json" "{}"
           (configOf [exampleRecord; mxRecord]) 1 mxRecord).
  - reflexivity.
  - reflexivity.
  - reflexivity.
  - simpl. intros [H|[H|[H|H]]]; try discriminate. exact H.
Defined.

(** C10: when [LoadConfig] succeeds, the records it returns are the decoded sequence,
    and the configuration differs from the decoded one at most in the two ports (zero
    to 53) and the timeout (zero to 5000). *)
Theorem C10_only_defaults_change :
  forall (re : option (string -> bool)) (open : string -> File + error)
         (dec : File -> Configuration + error) (path : string) (config' : Configuration),
    LoadConfig re open dec path = (Some config', None) ->
    exists f config,
      open path = inl f /\ dec f = inl config
      /\ LocalRecords config' = LocalRecords config
      /\ IPv4 (Primary (Upstream config')) = IPv4 (Primary (Upstream config))
      /\ IPv6 (Primary (Upstream config')) = IPv6 (Primary (Upstream config))
      /\ IPv4 (Secondary (Upstream config')) = IPv4 (Secondary (Upstream config))
      /\ IPv6 (Secondary (Upstream config')) = IPv6 (Secondary (Upstream config))
      /\ Port (Primary (Upstream config'))
         = (if Port (Primary (Upstream config)) =? 0 then 53
            else Port (Primary (Upstream config)))
      /\ Port (Secondary (Upstream config'))
         = (if Port (Secondary (Upstream config)) =? 0 then 53
            else Port (Secondary (Upstream config)))
      /\ TimeoutMs (Upstream config')
         = (if TimeoutMs (Upstream config) =? 0 then 5000 else TimeoutMs (Upstream config)).
Proof.
  intros re open dec path config' H.
  destruct (LoadConfig_success _ _ _ _ _ H) as (f & config & Ho & Hd & Hv).
  exists f, config. rewrite validateConfig_eq in Hv.
  destruct (head (failedChecks re config)); [discriminate|].
  injection Hv as <-. repeat split; auto.
Qed.

Lemma C10_only_defaults_change_witness :
  exists f config,
    oneFile "labns.json" = inl f /\ decodesTo exampleConfig f = inl config
    /\ LocalRecords (normalized exampleConfig) = LocalRecords config
    /\ IPv4 (Primary (Upstream (normalized exampleConfig))) = IPv4 (Primary (Upstream config))
    /\ IPv6 (Primary (Upstream (normalized exampleConfig))) = IPv6 (Primary (Upstream config))
    /\ IPv4 (Secondary (Upstream (normalized exampleConfig)))
       = IPv4 (Secondary (Upstream config))
    /\ IPv6 (Secondary (Upstream (normalized exampleConfig)))
       = IPv6 (Secondary (Upstream config))
    /\ Port (Primary (Upstream (normalized exampleConfig)))
       = (if Port (Primary (Upstream config)) =? 0 then 53
          else Port (Primary (Upstream config)))
    /\ Port (Secondary (Upstream (normalized exampleConfig)))
       = (if Port (Secondary (Upstream config)) =? 0 then 53
          else Port (Secondary (Upstream config)))
    /\ TimeoutMs (Upstream (normalized exampleConfig))
       = (if TimeoutMs (Upstream config) =? 0 then 5000 else TimeoutMs (Upstream config)).
Proof.
  apply (C10_only_defaults_change (Some fqdn_grammar) oneFile (decodesTo exampleConfig)
           "labns.json" (normalized exampleConfig)).
  vm_compute. reflexivity.
Defined.

(** ** Further properties of the loader *)

Lemma nameserverFailures_nil (ns : Nameserver) :
  nameserverFailures ns = [] <-> nameserverValid ns.
Proof.
  split; [|apply nameserverValid_no_failure].
  unfold nameserverFailures, nameserverValid. intro H.
  destruct (String.eqb (IPv4 ns) "") eqn:E4; destruct (String.eqb (IPv6 ns) "") eqn:E6;
    simpl in H; try discriminate.
  - apply String.eqb_eq in E4. apply String.eqb_neq in E6.
    destruct (net.ParseIP (IPv6 ns)) eqn:P6; [|discriminate].
    split; [right; exact E6 | split; [contradiction | discriminate]].
  - apply String.eqb_neq in E4. apply String.eqb_eq in E6.
    destruct (net.ParseIP (IPv4 ns)) eqn:P4; [|discriminate].
    split; [left; exact E4 | split; [discriminate | contradiction]].
  - apply String.eqb_neq in E4. apply String.eqb_neq in E6.
    destruct (net.ParseIP (IPv4 ns)) eqn:P4; [|discriminate].
    destruct (net.ParseIP (IPv6 ns)) eqn:P6; [|discriminate].
    split; [left; exact E4 | split; discriminate].
Qed.

Lemma head_None_nil {A} (l : list A) : head l = None <-> l = [].
Proof. destruct l; simpl; split; congruence. Qed.

Lemma nameserverFailures_head (ns : Nameserver) (e : error) :
  head (nameserverFailures ns) = Some e -> nameserverError e ns.
Proof.
  unfold nameserverFailures, nameserverError.
  repeat match goal with |- context [if ?c then _ else _] => destruct c; simpl end;
    intros [= <-]; auto.
Qed.

Lemma nameserverFailures_addresses (a b : string) (p q : Z) :
  nameserverFailures (mkNameserver a b p) = nameserverFailures (mkNameserver a b q).
Proof. reflexivity. Qed.

Lemma defaultPort_idem (ns : Nameserver) : defaultPort (defaultPort ns) = defaultPort ns.
Proof.
  unfold defaultPort. simpl. destruct (Port ns =? 0) eqn:E; [reflexivity|]. rewrite E. reflexivity.
Qed.

Lemma defaultPort_nonzero (ns : Nameserver) : Port (defaultPort ns) <> 0.
Proof.
  unfold defaultPort. simpl. destruct (Port ns =? 0) eqn:E; [lia | apply Z.eqb_neq in E; exact E].
Qed.


Lemma checkRecords_Some re (records : list LocalDNSRecord) : forall k e,
  checkRecords re k records = Some e ->
  exists j, (j < length records)%nat /\ recordError e (k + j).
Proof.
  induction records as [|v rest IH]; intros k e H; simpl in H; [discriminate|].
  destruct (checkRecord re k v) as [e'|] eqn:E.
  - injection H as <-. exists O. rewrite Nat.add_0_r. split; [simpl; lia|].
    eapply checkRecord_Some; eassumption.
  - destruct (IH _ _ H) as (j & Hj & He). exists (S j). split; [simpl; lia|].
    replace (k + S j)%nat with (S k + j)%nat by lia. exact He.
Qed.

Lemma validateConfig_success re (config c : Configuration) :
  validateConfig re config = (Some c, None) ->
  c = normalized config /\ failedChecks re config = [].
Proof.
  rewrite validateConfig_eq. destruct (head (failedChecks re config)) eqn:E; [discriminate|].
  intros [= <-]. split; [reflexivity | apply head_None_nil; exact E].
Qed.

Lemma failedChecks_nil re (config : Configuration) :
  failedChecks re config = [] <->
  Forall (fun v => recordOK re v = true) (LocalRecords config)
  /\ nameserverValid (Primary (Upstream config))
  /\ nameserverValid (Secondary (Upstream config)).
Proof.
  unfold failedChecks. rewrite <- (checkRecords_None re _ O), checkRecords_head.
  rewrite <- !nameserverFailures_nil, head_None_nil. split.
  - intro H. apply app_eq_nil in H. destruct H as [H1 H2]. apply app_eq_nil in H2. tauto.
  - intros (-> & -> & ->). reflexivity.
Qed.

(** X1: [LoadConfig] returns either a configuration and no error, or no configuration
    and an error; never both and never neither. *)
Theorem X1_LoadConfig_config_or_error :
  forall (re : option (string -> bool)) (open : string -> File + error)
         (dec : File -> Configuration + error) (path : string),
    (exists c, LoadConfig re open dec path = (Some c, None))
    \/ (exists e, LoadConfig re open dec path = (None, Some e)).
Proof.
  intros re open dec path. unfold LoadConfig.
  destruct (open path) as [f|e]; [|right; eauto].
  destruct (dec f) as [config|e]; [|right; eauto].
  rewrite validateConfig_eq. destruct (head (failedChecks re config)); eauto.
Qed.

(** X2: every error of [LoadConfig] is the error of [os.Open], the error of the
    decoder, an error naming a record index inside the decoded sequence, an error of
    [ValidateNameserver] on the primary (all records having passed), or one on the
    secondary (all records and the primary having passed). *)
Theorem X2_LoadConfig_error_taxonomy :
  forall (re : option (string -> bool)) (open : string -> File + error)
         (dec : File -> Configuration + error) (path : string) (e : error),
    snd (LoadConfig re open dec path) = Some e ->
    open path = inr e
    \/ (exists f, open path = inl f /\ dec f = inr e)
    \/ (exists f config,
          open path = inl f /\ dec f = inl config
          /\ ((exists j, (j < length (LocalRecords config))%nat /\ recordError e j)
              \/ (Forall (fun v => recordOK re v = true) (LocalRecords config)
                  /\ nameserverError e (Primary (Upstream config)))
              \/ (Forall (fun v => recordOK re v = true) (LocalRecords config)
                  /\ nameserverValid (Primary (Upstream config))
                  /\ nameserverError e (Secondary (Upstream config))))).
Proof.
  intros re open dec path e. unfold LoadConfig.
  destruct (open path) as [f|e0]; [|simpl; intros [= ->]; left; reflexivity].
  destruct (dec f) as [config|e0] eqn:Ed; [|simpl; intros [= ->]; right; left; eauto].
  intro H. right. right. exists f, config. split; [reflexivity | split; [exact Ed|]].
  unfold validateConfig in H.
  destruct (checkRecords re 0 (LocalRecords config)) as [e0|] eqn:Ec.
  - simpl in H. injection H as ->. left.
    destruct (checkRecords_Some _ _ _ _ Ec) as (j & Hj & He). eauto.
  - apply checkRecords_None in Ec. rewrite !ValidateNameserver_eq in H.
    destruct (head (nameserverFailures (Primary (Upstream config)))) as [e0|] eqn:Ep.
    + simpl in H. injection H as ->. right. left. split; [exact Ec|].
      apply nameserverFailures_head. exact Ep.
    + apply head_None_nil, nameserverFailures_nil in Ep.
      destruct (head (nameserverFailures (Secondary (Upstream config)))) as [e0|] eqn:Es.
      * simpl in H. injection H as ->. right. right. split; [exact Ec | split; [exact Ep|]].
        apply nameserverFailures_head. exact Es.
      * discriminate.
Qed.

Lemma X2_LoadConfig_error_taxonomy_witness :
  oneFile "labns.json" = inr errNoAddress
  \/ (exists f, oneFile "labns.json" = inl f
                /\ decodesTo (mkConfiguration [exampleRecord]
                                (mkUpstreamNameservers cloudflare emptyNameserver 0)) f
                   = inr errNoAddress)
  \/ (exists f config,
        oneFile "labns.json" = inl f
        /\ decodesTo (mkConfiguration [exampleRecord]
                        (mkUpstreamNameservers cloudflare emptyNameserver 0)) f = inl config
        /\ ((exists j, (j < length (LocalRecords config))%nat /\ recordError errNoAddress j)
            \/ (Forall (fun v => recordOK (Some fqdn_grammar) v = true) (LocalRecords config)
                /\ nameserverError errNoAddress (Primary (Upstream config)))
            \/ (Forall (fun v => recordOK (Some fqdn_grammar) v = true) (LocalRecords config)
                /\ nameserverValid (Primary (Upstream config))
                /\ nameserverError errNoAddress (Secondary (Upstream config))))).
Proof.
  apply (X2_LoadConfig_error_taxonomy (Some fqdn_grammar) oneFile
           (decodesTo (mkConfiguration [exampleRecord]
                         (mkUpstreamNameservers cloudflare emptyNameserver 0)))
           "labns.json" errNoAddress).
  vm_compute. reflexivity.
Defined.

(** X3: after a successful decode, [LoadConfig] returns the configuration with its
    defaults filled in exactly when every record passes the four rules and both
    endpoints have an address and only addresses that parse. *)
Theorem X3_LoadConfig_succeeds_iff :
  forall (re : option (string -> bool)) (open : string -> File + error)
         (dec : File -> Configuration + error) (path : string) (f : File)
         (config : Configuration),
    open path = inl f -> dec f = inl config ->
    (LoadConfig re open dec path = (Some (normalized config), None) <->
     Forall (fun v => recordOK re v = true) (LocalRecords config)
     /\ nameserverValid (Primary (Upstream config))
     /\ nameserverValid (Secondary (Upstream config))).
Proof.
  intros re open dec path f config Ho Hd.
  rewrite (LoadConfig_decoded _ _ _ _ _ _ Ho Hd), <- failedChecks_nil, validateConfig_eq.
  destruct (failedChecks re config) as [|e l]; simpl; split; congruence.
Qed.

Lemma X3_LoadConfig_succeeds_iff_witness :
  LoadConfig (Some fqdn_grammar) oneFile (decodesTo exampleConfig) "labns.json"
    = (Some (normalized exampleConfig), None) <->
  Forall (fun v => recordOK (Some fqdn_grammar) v = true) (LocalRecords exampleConfig)
  /\ nameserverValid (Primary (Upstream exampleConfig))
  /\ nameserverValid (Secondary (Upstream exampleConfig)).
Proof.
  apply (X3_LoadConfig_succeeds_iff (Some fqdn_grammar) oneFile (decodesTo exampleConfig)
           "labns.json" "{}" exampleConfig); reflexivity.
Defined.

(** X4: a configuration returned by [LoadConfig] satisfies the rules it was checked
    against: every record has a valid name, a permitted type, a nonzero TTL and a
    target valid for its type; both endpoints are valid with a nonzero port; the
    timeout is nonzero. *)
Theorem X4_loaded_configuration_invariant :
  forall (re : option (string -> bool)) (open : string -> File + error)
         (dec : File -> Configuration + error) (path : string) (c : Configuration),
    LoadConfig re open dec path = (Some c, None) ->
    Forall (fun v =>
              isValidRecordName re (Name v) = true /\ isValidType (Type_ v) = true
              /\ TTL v <> 0 /\ isValidTarget re (Type_ v) (Target v) = true)
      (LocalRecords c)
    /\ nameserverValid (Primary (Upstream c)) /\ Port (Primary (Upstream c)) <> 0
    /\ nameserverValid (Secondary (Upstream c)) /\ Port (Secondary (Upstream c)) <> 0
    /\ TimeoutMs (Upstream c) <> 0.
Proof.
  intros re open dec path c H.
  destruct (LoadConfig_success _ _ _ _ _ H) as (f & config & _ & _ & Hv).
  apply validateConfig_success in Hv. destruct Hv as [-> Hv].
  apply failedChecks_nil in Hv. destruct Hv as (Hr & Hp & Hs). simpl.
  split; [|split; [exact Hp | split; [apply defaultPort_nonzero | split;
    [exact Hs | split; [apply defaultPort_nonzero|]]]]].
  - eapply Forall_impl; [exact Hr|]. intros v Hok. unfold recordOK in Hok.
    apply andb_true_iff in Hok. destruct Hok as [Hok Ht].
    apply andb_true_iff in Hok. destruct Hok as [Hok Httl].
    apply andb_true_iff in Hok. destruct Hok as [Hn Hty].
    apply negb_true_iff, Z.eqb_neq in Httl. auto.
  - destruct (TimeoutMs (Upstream config) =? 0) eqn:E; [lia | apply Z.eqb_neq in E; exact E].
Qed.

Lemma X4_loaded_configuration_invariant_witness :
  Forall (fun v =>
            isValidRecordName (Some fqdn_grammar) (Name v) = true
            /\ isValidType (Type_ v) = true
            /\ TTL v <> 0
            /\ isValidTarget (Some fqdn_grammar) (Type_ v) (Target v) = true)
    (LocalRecords (normalized exampleConfig))
  /\ nameserverValid (Primary (Upstream (normalized exampleConfig)))
  /\ Port (Primary (Upstream (normalized exampleConfig))) <> 0
  /\ nameserverValid (Secondary (Upstream (normalized exampleConfig)))
  /\ Port (Secondary (Upstream (normalized exampleConfig))) <> 0
  /\ TimeoutMs (Upstream (normalized exampleConfig)) <> 0.
Proof.
  apply (X4_loaded_configuration_invariant (Some fqdn_grammar) oneFile
           (decodesTo exampleConfig) "labns.json" (normalized exampleConfig)).
  vm_compute. reflexivity.
Defined.

Lemma normalized_idem (config : Configuration) : normalized (normalized config) = normalized config.
Proof.
  unfold normalized. simpl. rewrite !defaultPort_idem.
  destruct (TimeoutMs (Upstream config) =? 0) eqn:E; [reflexivity|]. rewrite E. reflexivity.
Qed.

Lemma failedChecks_normalized re (config : Configuration) :
  failedChecks re (normalized config) = failedChecks re config.
Proof. reflexivity. Qed.

(** X5: a configuration returned by [LoadConfig] is a fixed point: decoding that
    very configuration and loading it again returns it unchanged. *)
Theorem X5_loaded_configuration_reloads_unchanged :
  forall (re : option (string -> bool)) (open open' : string -> File + error)
         (dec dec' : File -> Configuration + error) (path path' : string) (f' : File)
         (c : Configuration),
    LoadConfig re open dec path = (Some c, None) ->
    open' path' = inl f' -> dec' f' = inl c ->
    LoadConfig re open' dec' path' = (Some c, None).
Proof.
  intros re open open' dec dec' path path' f' c H Ho Hd.
  destruct (LoadConfig_success _ _ _ _ _ H) as (f & config & _ & _ & Hv).
  apply validateConfig_success in Hv. destruct Hv as [-> Hv].
  rewrite (LoadConfig_decoded _ _ _ _ _ _ Ho Hd), validateConfig_eq.
  rewrite failedChecks_normalized, Hv, normalized_idem. reflexivity.
Qed.

Lemma X5_loaded_configuration_reloads_unchanged_witness :
  LoadConfig (Some fqdn_grammar) oneFile (decodesTo (normalized exampleConfig)) "labns.json"
    = (Some (normalized exampleConfig), None).
Proof.
  apply (X5_loaded_configuration_reloads_unchanged (Some fqdn_grammar) oneFile oneFile
           (decodesTo exampleConfig) (decodesTo (normalized exampleConfig))
           "labns.json" "labns.json" "{}" (normalized exampleConfig)).
  - vm_compute. reflexivity.
  - reflexivity.
  - reflexivity.
Defined.

Lemma fmt_d_inj (j k : nat) : fmt_d j = fmt_d k -> j = k.
Proof.
  unfold fmt_d. intro H. apply Unsigned.to_uint_inj.
  assert (E : NilEmpty.uint_of_string (NilEmpty.string_of_uint (Nat.to_uint j))
              = NilEmpty.uint_of_string (NilEmpty.string_of_uint (Nat.to_uint k)))
    by (rewrite H; reflexivity).
  rewrite !NilEmpty.usu in E. congruence.
Qed.

Lemma append_length (a b : string) :
  String.length (String.append a b) = (String.length a + String.length b)%nat.
Proof. induction a as [|c a IH]; simpl; [reflexivity | rewrite IH; reflexivity]. Qed.

Lemma append_inv_tail (s : string) : forall a b : string,
  String.append a s = String.append b s -> a = b.
Proof.
  induction a as [|c a IH]; intros [|d b] H; simpl in H.
  - reflexivity.
  - apply (f_equal String.length) in H. rewrite ?append_length in H. simpl in H.
    rewrite ?append_length in H. lia.
  - apply (f_equal String.length) in H. rewrite ?append_length in H. simpl in H.
    rewrite ?append_length in H. lia.
  - injection H as -> H. f_equal. apply IH. exact H.
Qed.

Lemma append_inv_head (p : string) : forall a b : string,
  String.append p a = String.append p b -> a = b.
Proof. induction p as [|c p IH]; intros a b H; simpl in H; [exact H | injection H as H; auto]. Qed.


(** X8: the message of a record error determines both the rule that failed and the
    index of the record: two record errors are equal only for the same rule and the
    same index. *)
Theorem X8_error_message_identifies_rule_and_index :
  forall (r r' : Rule) (j k : nat), errRule r j = errRule r' k -> r = r' /\ j = k.
Proof.
  intros r r' j k H.
  destruct r, r'; simpl in H; unfold errName, errType, errTTL, errTarget in H;
    try (simpl in H; discriminate);
    (split; [reflexivity|]); apply append_inv_head, append_inv_tail in H;
    apply fmt_d_inj; exact H.
Qed.

Lemma X8_error_message_identifies_rule_and_index_witness : RuleTTL = RuleTTL /\ 12%nat = 12%nat.
Proof.
  apply (X8_error_message_identifies_rule_and_index RuleTTL RuleTTL 12 12). reflexivity.
Defined.

Lemma validateConfig_succeeds_iff re (config : Configuration) :
  (exists c, validateConfig re config = (Some c, None)) <-> failedChecks re config = [].
Proof.
  rewrite validateConfig_eq. destruct (failedChecks re config) as [|e l]; simpl; split.
  - reflexivity.
  - eauto.
  - intros (c & [=]).
  - discriminate.
Qed.

(** X6: whether a decoded configuration is accepted does not depend on the order of
    its local records. *)
Theorem X6_record_order_irrelevant_for_acceptance :
  forall (re : option (string -> bool)) (up : UpstreamNameservers)
         (records records' : list LocalDNSRecord),
    Permutation records records' ->
    ((exists c, validateConfig re (mkConfiguration records up) = (Some c, None)) <->
     (exists c, validateConfig re (mkConfiguration records' up) = (Some c, None))).
Proof.
  intros re up records records' Hp.
  rewrite !validateConfig_succeeds_iff, !failedChecks_nil. simpl.
  rewrite Hp. reflexivity.
Qed.

Lemma X6_record_order_irrelevant_for_acceptance_witness :
  (exists c, validateConfig (Some fqdn_grammar)
               (mkConfiguration [exampleRecord; quadARecord] exampleUpstream) = (Some c, None)) <->
  (exists c, validateConfig (Some fqdn_grammar)
               (mkConfiguration [quadARecord; exampleRecord] exampleUpstream) = (Some c, None)).
Proof.
  apply (X6_record_order_irrelevant_for_acceptance (Some fqdn_grammar) exampleUpstream
           [exampleRecord; quadARecord] [quadARecord; exampleRecord]).
  apply perm_swap.
Defined.

(** X7: the record loop on a concatenation returns the error of the first part when
    it has one, and otherwise the result of the second part, its indices shifted by
    the length of the first. *)
Theorem X7_records_concatenation :
  forall (re : option (string -> bool)) (k : nat) (a b : list LocalDNSRecord),
    checkRecords re k (a ++ b) =
      match checkRecords re k a with
      | Some e => Some e
      | None => checkRecords re (k + length a) b
      end.
Proof.
  intros re k a. revert k. induction a as [|v a IH]; intros k b; simpl.
  - rewrite Nat.add_0_r. reflexivity.
  - destruct (checkRecord re k v); [reflexivity|].
    rewrite IH. replace (S k + length a)%nat with (k + S (length a))%nat by lia. reflexivity.
Qed.

(** X9: [ValidateNameserver] returns [nil] exactly when at least one of the two
    addresses is non-empty and every non-empty one parses as an IP literal; the port
    plays no part. *)
Theorem X9_ValidateNameserver_accepts_iff :
  forall ns : Nameserver,
    snd (ValidateNameserver ns) = None <->
    (IPv4 ns <> "" \/ IPv6 ns <> "")
    /\ (IPv4 ns <> "" -> net.ParseIP (IPv4 ns) <> None)
    /\ (IPv6 ns <> "" -> net.ParseIP (IPv6 ns) <> None).
Proof.
  intro ns. rewrite ValidateNameserver_snd, head_None_nil. apply nameserverFailures_nil.
Qed.

(** X10: [ValidateNameserver] does not tell the two address fields apart: an
    endpoint passes exactly when the endpoint with [IPv4] and [IPv6] exchanged passes,
    whatever the ports. *)
Theorem X10_ValidateNameserver_family_blind :
  forall (a b : string) (p q : Z),
    snd (ValidateNameserver (mkNameserver a b p)) = None <->
    snd (ValidateNameserver (mkNameserver b a q)) = None.
Proof.
  intros a b p q. rewrite !ValidateNameserver_snd, !head_None_nil, !nameserverFailures_nil.
  unfold nameserverValid. simpl. tauto.
Qed.

(** X11: on every path, error returns included, [ValidateNameserver] leaves a nonzero
    port, and calling it again on the endpoint it left returns the same endpoint and
    the same result. *)
Theorem X11_ValidateNameserver_idempotent_on_every_path :
  forall ns : Nameserver,
    ValidateNameserver (fst (ValidateNameserver ns)) = ValidateNameserver ns
    /\ Port (fst (ValidateNameserver ns)) <> 0.
Proof.
  intro ns. rewrite !ValidateNameserver_eq. simpl. split.
  - rewrite defaultPort_idem. reflexivity.
  - apply defaultPort_nonzero.
Qed.

(** X12: [isValidType] accepts exactly the keys of [RecordTypeMap]: a record type
    that passed validation has a wire code. *)
Theorem X12_permitted_types_are_the_keys_of_RecordTypeMap :
  forall ty : string,
    isValidType ty = true <-> is_Some (RecordTypeMap !! ty).
Proof.
  intro ty. rewrite isValidType_iff. unfold RecordTypeMap, PermittedRecordTypes.
  rewrite !lookup_insert_is_Some'. cbn [In]. split.
  - intros [<-|[<-|[<-|[]]]]; auto.
  - intros [<-|[<-|[<-|H]]]; auto. apply lookup_empty_is_Some in H. contradiction.
Qed.

(** X13: an [AAAA] target passes exactly when [net.ParseIP] accepts it, so every
    target that passes as an [A] target also passes as an [AAAA] target. *)
Theorem X13_AAAA_accepts_every_IP_literal :
  forall (re : option (string -> bool)) (t : string),
    (isValidTarget re "AAAA" t = true <-> net.ParseIP t <> None)
    /\ (isValidTarget re "A" t = true -> isValidTarget re "AAAA" t = true).
Proof.
  intros re t. split; [apply isValidTarget_AAAA_iff|].
  intro H. apply isValidTarget_AAAA_iff. apply isValidTarget_A_iff in H.
  destruct H as (ip & -> & _). discriminate.
Qed.

Lemma X13_AAAA_accepts_every_IP_literal_witness :
  isValidTarget None "AAAA" "10.0.0.5" = true.
Proof.
  apply (proj2 (X13_AAAA_accepts_every_IP_literal None "10.0.0.5")). vm_compute. reflexivity.
Defined.

(** X16: a string that passes as a [CNAME] target also passes as a record name. *)
Theorem X16_CNAME_target_is_a_valid_record_name :
  forall (re : option (string -> bool)) (t : string),
    isValidTarget re "CNAME" t = true -> isValidRecordName re t = true.
Proof.
  intros re t H. apply isValidTarget_CNAME_iff in H. destruct H as [H _].
  apply matchesFQDN_isValidRecordName. exact H.
Qed.

Lemma X16_CNAME_target_is_a_valid_record_name_witness :
  isValidRecordName (Some fqdn_grammar) "svc.local." = true.
Proof.
  apply (X16_CNAME_target_is_a_valid_record_name (Some fqdn_grammar) "svc.local.").
  vm_compute. reflexivity.
Defined.

(** X17: when [VALID_FQDN_REGEX] does not compile, no record name and no [CNAME]
    target passes, and every decoded configuration with at least one local record is
    rejected with the name error at index 0. *)
Theorem X17_pattern_that_does_not_compile :
  forall (open : string -> File + error) (dec : File -> Configuration + error)
         (path : string) (f : File) (config : Configuration),
    open path = inl f -> dec f = inl config -> LocalRecords config <> [] ->
    LoadConfig None open dec path = (None, Some (errName 0))
    /\ (forall s, isValidRecordName None s = false)
    /\ (forall t, isValidTarget None "CNAME" t = false).
Proof.
  intros open dec path f config Ho Hd Hr.
  rewrite (LoadConfig_decoded _ _ _ _ _ _ Ho Hd). split; [|split; reflexivity].
  unfold validateConfig. destruct (LocalRecords config) as [|v rest]; [contradiction|].
  reflexivity.
Qed.

Lemma X17_pattern_that_does_not_compile_witness :
  LoadConfig None oneFile (decodesTo exampleConfig) "labns.json" = (None, Some (errName 0))
  /\ (forall s, isValidRecordName None s = false)
  /\ (forall t, isValidTarget None "CNAME" t = false).
Proof.
  apply (X17_pattern_that_does_not_compile oneFile (decodesTo exampleConfig) "labns.json"
           "{}" exampleConfig).
  - reflexivity.
  - reflexivity.
  - simpl. discriminate.
Defined.

(** X18: the error returned for a decoded configuration does not depend on the two
    ports or on the timeout: no value of them is ever rejected. *)
Theorem X18_ports_and_timeout_are_never_checked :
  forall (re : option (string -> bool)) (records : list LocalDNSRecord)
         (a1 b1 a2 b2 : string) (p1 p2 t p1' p2' t' : Z),
    snd (validateConfig re
           (mkConfiguration records
              (mkUpstreamNameservers (mkNameserver a1 b1 p1) (mkNameserver a2 b2 p2) t)))
    = snd (validateConfig re
             (mkConfiguration records
                (mkUpstreamNameservers (mkNameserver a1 b1 p1') (mkNameserver a2 b2 p2') t'))).
Proof.
  intros. rewrite !validateConfig_eq. unfold failedChecks. simpl.
  rewrite (nameserverFailures_addresses a1 b1 p1 p1'),
    (nameserverFailures_addresses a2 b2 p2 p2').
  match goal with |- context [head ?l] => destruct (head l) end; reflexivity.
Qed.

Lemma runes_ascii (s : list Z) :
  Forall (fun b => b < 0x80) s -> utf8.runes s = s.
Proof.
  induction 1 as [|b s Hb _ IH]; simpl; [reflexivity|].
  apply Z.ltb_lt in Hb. rewrite Hb, IH. reflexivity.
Qed.

(** X19: for a target made of ASCII bytes only, the [CNAME] check is the check on
    bytes: it passes exactly when the pattern matches and no two consecutive bytes are
    equal. *)
Theorem X19_CNAME_target_ASCII :
  forall (re : option (string -> bool)) (t : string),
    Forall (fun b => b < 0x80) (bytes t) ->
    (isValidTarget re "CNAME" t = true <->
     matchesFQDN re t /\ noAdjacentRepeat (bytes t)).
Proof.
  intros re t H. rewrite isValidTarget_CNAME_iff, (runes_ascii _ H). reflexivity.
Qed.

Lemma X19_CNAME_target_ASCII_witness :
  isValidTarget (Some fqdn_grammar) "CNAME" "svc.local." = true <->
  matchesFQDN (Some fqdn_grammar) "svc.local." /\ noAdjacentRepeat (bytes "svc.local.").
Proof.
  apply (X19_CNAME_target_ASCII (Some fqdn_grammar) "svc.local.").
  vm_compute. repeat constructor.
Defined.

Lemma ParseIP_scan_no_separator (w s : list Z) :
  Forall (fun b => sepChar b = false) s -> net.ParseIP_scan w s = None.
Proof.
  intro H. rewrite <- (app_nil_r s). rewrite ParseIP_scan_skip by assumption. reflexivity.
Qed.

(** X20: a string with no ['.'] and no [':'] (the empty string included) passes
    neither as an [A] nor as an [AAAA] target, and, when non-empty, makes
    [ValidateNameserver] return the IPv4 error when it is the [IPv4] address. *)
Theorem X20_address_needs_a_separator :
  forall (re : option (string -> bool)) (t : string),
    Forall (fun b => b <> ch_dot /\ b <> ch_colon) (bytes t) ->
    isValidTarget re "A" t = false /\ isValidTarget re "AAAA" t = false
    /\ (t <> "" -> forall (other : string) (p : Z),
          snd (ValidateNameserver (mkNameserver t other p)) = Some (errIPv4 t)).
Proof.
  intros re t H.
  assert (Hp : net.ParseIP t = None).
  { unfold net.ParseIP. apply ParseIP_scan_no_separator.
    eapply Forall_impl; [exact H|]. intros b [H1 H2]. apply sepChar_false; assumption. }
  rewrite isValidTarget_A, isValidTarget_AAAA, Hp. split; [reflexivity | split; [reflexivity|]].
  intros Ht other p. rewrite ValidateNameserver_snd. unfold nameserverFailures. simpl.
  apply String.eqb_neq in Ht. rewrite Ht, Hp. reflexivity.
Qed.

Lemma X20_address_needs_a_separator_witness :
  isValidTarget None "A" "localhost" = false /\ isValidTarget None "AAAA" "localhost" = false
  /\ ("localhost" <> "" -> forall (other : string) (p : Z),
        snd (ValidateNameserver (mkNameserver "localhost" other p))
        = Some (errIPv4 "localhost")).
Proof.
  apply (X20_address_needs_a_separator None "localhost").
  vm_compute. repeat constructor; discriminate.
Defined.

(** ** The bytes of a validated address *)

Module netBytes.
Import net.

Lemma at_isByte (l : list Z) (i : nat) :
  Forall isByte l -> (i < length l)%nat -> isByte (at_ l i).
Proof.
  intros H Hi. unfold at_. rewrite nth_lookup.
  destruct (lookup_lt_is_Some_2 l i Hi) as [x Hx]. rewrite Hx. simpl.
  eapply Forall_lookup_1; eassumption.
Qed.

Lemma mod_isByte (n : Z) : isByte (n mod 256).
Proof. unfold isByte. apply Z.mod_pos_bound. lia. Qed.

Lemma parseIPv4_loop_bytes k : forall s p s' p',
  parseIPv4_loop k s p = Some (s', p') -> Forall isByte p ->
  Forall isByte p' /\ length p' = length p.
Proof.
  induction k as [|k IH]; intros s p s' p'.
  - simpl. intros [= <- <-] H. auto.
  - rewrite parseIPv4_loop_S. cbv zeta.
    destruct (len s =? 0); [discriminate|].
    destruct (if (0 <? IPv4len - S k)%nat then _ else _) as [s0|]; [|discriminate].
    destruct (dtoi s0) as [[n c] ok].
    destruct (negb ok || (255 <? n)); [discriminate|].
    destruct ((1 <? c)%nat && _); [discriminate|].
    intros H Hp. apply IH in H.
    + rewrite length_insert in H. exact H.
    + apply Forall_insert; [exact Hp | apply mod_isByte].
Qed.

Lemma IPv4_bytes (a b c d : Z) :
  isByte a -> isByte b -> isByte c -> isByte d -> Forall isByte (IPv4 a b c d).
Proof.
  intros. unfold IPv4, v4InV6Prefix. simpl.
  repeat (constructor; [first [assumption | unfold isByte; lia]|]). constructor.
Qed.

Lemma parseIPv4_bytes s ip : parseIPv4 s = Some ip -> Forall isByte ip /\ length ip = IPv6len.
Proof.
  unfold parseIPv4.
  destruct (parseIPv4_loop _ _ _) as [[s' p]|] eqn:E; [|discriminate].
  destruct (negb _); [discriminate|]. intros [= <-].
  apply parseIPv4_loop_bytes in E;
    [|repeat (constructor; [unfold isByte; lia|]); constructor].
  destruct E as [Hb Hl]. simpl in Hl. split; [|reflexivity].
  apply IPv4_bytes; apply at_isByte; try assumption; lia.
Qed.

Lemma move_up_bytes cnt : forall e n ip, Forall isByte ip -> Forall isByte (move_up cnt e n ip).
Proof.
  induction cnt as [|c IH]; intros e n ip H; simpl; [exact H|]. apply IH.
  destruct (Nat.lt_ge_cases (e + c) (length ip)) as [Hlt|Hge].
  - apply Forall_insert; [exact H | apply at_isByte; assumption].
  - rewrite list_insert_ge by lia. exact H.
Qed.

Lemma zero_fill_bytes cnt : forall e ip, Forall isByte ip -> Forall isByte (zero_fill cnt e ip).
Proof.
  induction cnt as [|c IH]; intros e ip H; simpl; [exact H|]. apply IH.
  apply Forall_insert; [exact H | unfold isByte; lia].
Qed.

Lemma parseIPv6_loop_bytes k : forall s ip e s' ip' i' e',
  parseIPv6_loop k s ip e = Some (s', ip', i', e') -> Forall isByte ip -> Forall isByte ip'.
Proof.
  induction k as [|k IH]; intros s ip e s' ip' i' e'.
  - simpl. intros [= <- <- <- <-] H. exact H.
  - rewrite parseIPv6_loop_S. cbv zeta.
    destruct (xtoi s) as [[n c] ok].
    destruct (negb ok || (65535 <? n)); [discriminate|].
    destruct ((Z.of_nat c <? len s) && _).
    + destruct ((e <? 0) && _); [discriminate|].
      destruct (_ <? _)%nat; [discriminate|].
      destruct (parseIPv4 s) as [ip4|] eqn:E4; [|discriminate].
      apply parseIPv4_bytes in E4. destruct E4 as [Hb Hl].
      intros [= <- <- <- <-] H.
      repeat apply Forall_insert; try assumption; apply at_isByte; try assumption;
        rewrite Hl; unfold IPv6len; lia.
    + assert (Hins : Forall isByte ip ->
                Forall isByte (<[(IPv6len - 2 * S k + 1)%nat := n mod 256]>
                                 (<[(IPv6len - 2 * S k)%nat := Z.shiftr n 8 mod 256]> ip)))
        by (intro H; repeat apply Forall_insert; try assumption; apply mod_isByte).
      repeat match goal with
      | |- context [if ?x then _ else _] => destruct x
      end; try discriminate;
      try (intros [= <- <- <- <-] H; apply Hins; exact H);
      try (intros H Hb; apply IH in H; [exact H | apply Hins; exact Hb]).
Qed.

Lemma parseIPv6_bytes s ip : parseIPv6 s = Some ip -> Forall isByte ip.
Proof.
  assert (Hz : Forall isByte zeroIP)
    by (unfold zeroIP; simpl; repeat (constructor; [unfold isByte; lia|]); constructor).
  unfold parseIPv6. cbv zeta.
  destruct (_ && (len _ =? 0)).
  - intros [= <-]. exact Hz.
  - destruct (parseIPv6_loop _ _ _ _) as [[[[s' ip'] i'] e']|] eqn:E; [|discriminate].
    apply parseIPv6_loop_bytes in E; [|exact Hz].
    repeat match goal with
    | |- context [if ?x then _ else _] => destruct x
    end; try discriminate; intros [= <-];
    try apply zero_fill_bytes; try apply move_up_bytes; exact E.
Qed.

Lemma ParseIP_bytes (s : string) ip :
  ParseIP s = Some ip -> Forall isByte ip /\ length ip = IPv6len.
Proof.
  intro H. split; [|eapply ParseIP_length; eassumption].
  destruct (ParseIP_inv _ _ H) as [H4|H6].
  - apply parseIPv4_bytes in H4. tauto.
  - eapply parseIPv6_bytes; eassumption.
Qed.

End netBytes.

Import netBytes.

Lemma list_of_length_4 (l : list Z) : length l = 4%nat -> exists a b c d, l = [a; b; c; d].
Proof.
  destruct l as [|a [|b [|c [|d [|x l]]]]]; simpl; intro H; try discriminate. eauto.
Qed.

(** X14: for a target that passed as an [A] target, [net.ParseIP(target).To4()] is
    an address of exactly four bytes, each in [0, 256). *)
Theorem X14_valid_A_target_is_four_bytes :
  forall (re : option (string -> bool)) (t : string),
    isValidTarget re "A" t = true ->
    exists a b c d,
      net.To4 (net.ParseIP t) = Some [a; b; c; d]
      /\ isByte a /\ isByte b /\ isByte c /\ isByte d.
Proof.
  intros re t H. apply isValidTarget_A_iff in H. destruct H as (ip & Hp & Hm).
  rewrite Hp. destruct (ParseIP_bytes _ _ Hp) as [Hb Hl].
  unfold net.To4. rewrite Hl. simpl Nat.eqb. cbv iota.
  unfold isIPv4mapped in Hm. simpl andb. rewrite Hm.
  assert (Hl4 : length (take 4 (drop 12 ip)) = 4%nat).
  { rewrite length_take, length_drop, Hl. reflexivity. }
  destruct (list_of_length_4 _ Hl4) as (a & b & c & d & E). rewrite E.
  exists a, b, c, d. split; [reflexivity|].
  assert (Hb4 : Forall isByte [a; b; c; d]).
  { rewrite <- E. apply Forall_take, Forall_drop. exact Hb. }
  inversion Hb4 as [|? ? Ha Hb3]; subst. inversion Hb3 as [|? ? Hb' Hb2]; subst.
  inversion Hb2 as [|? ? Hc Hb1]; subst. inversion Hb1 as [|? ? Hd _]; subst. auto.
Qed.

Lemma X14_valid_A_target_is_four_bytes_witness :
  exists a b c d,
    net.To4 (net.ParseIP "10.0.0.5") = Some [a; b; c; d]
    /\ isByte a /\ isByte b /\ isByte c /\ isByte d.
Proof.
  apply (X14_valid_A_target_is_four_bytes None "10.0.0.5"). vm_compute. reflexivity.
Defined.

(** X15: for a target that passed as an [AAAA] target, [net.ParseIP(target).To16()]
    is an address of exactly sixteen bytes, each in [0, 256). *)
Theorem X15_valid_AAAA_target_is_sixteen_bytes :
  forall (re : option (string -> bool)) (t : string),
    isValidTarget re "AAAA" t = true ->
    exists ip,
      net.To16 (net.ParseIP t) = Some ip /\ length ip = 16%nat /\ Forall isByte ip.
Proof.
  intros re t H. apply isValidTarget_AAAA_iff in H.
  destruct (net.ParseIP t) as [ip|] eqn:Hp; [|contradiction].
  destruct (ParseIP_bytes _ _ Hp) as [Hb Hl].
  exists ip. rewrite (To16_16 _ Hl). auto.
Qed.

Lemma X15_valid_AAAA_target_is_sixteen_bytes_witness :
  exists ip,
    net.To16 (net.ParseIP "2001:db8::1") = Some ip /\ length ip = 16%nat /\ Forall isByte ip.
Proof.
  apply (X15_valid_AAAA_target_is_sixteen_bytes None "2001:db8::1"). vm_compute. reflexivity.
Defined.

(** X21: every IPv4 literal in 4-octet form passes as an [A] target, and every IPv6
    literal passes as an [AAAA] target. *)
Theorem X21_literals_of_the_right_family_pass :
  forall (re : option (string -> bool)) (t : string),
    (isIPv4Literal t -> isValidTarget re "A" t = true)
    /\ (isIPv6Literal t -> isValidTarget re "AAAA" t = true).
Proof.
  intros re t. split.
  - unfold isIPv4Literal. intro H. apply isValidTarget_A_iff.
    destruct (net.parseIPv4 (bytes t)) as [ip|] eqn:E; [|contradiction].
    exists ip. split; [apply ParseIP_of_parseIPv4; exact E|].
    destruct (parseIPv4_shape _ _ E) as (a & b & c & d & ->). reflexivity.
  - unfold isIPv6Literal. intro H. apply isValidTarget_AAAA_iff.
    destruct (net.parseIPv6 (bytes t)) as [ip|] eqn:E; [|contradiction].
    rewrite (ParseIP_of_parseIPv6 _ _ E). discriminate.
Qed.

Lemma X21_literals_of_the_right_family_pass_witness :
  isValidTarget None "A" "10.0.0.5" = true /\ isValidTarget None "AAAA" "2001:db8::1" = true.
Proof.
  split.
  - apply (proj1 (X21_literals_of_the_right_family_pass None "10.0.0.5")).
    unfold isIPv4Literal. vm_compute. discriminate.
  - apply (proj2 (X21_literals_of_the_right_family_pass None "2001:db8::1")).
    unfold isIPv6Literal. vm_compute. discriminate.
Defined.
